(** * pdf_craft.pdf.extractor: block assembly and paragraph shape inference

    A shallow embedding of [src/pdf_craft/pdf/extractor.py] and the
    properties its specification states about it.

    Conventions of the embedding.
    - A Python [float] is an IEEE 754 binary64 number.  It is modelled by
      the primitive type [float], whose operations are the binary64
      operations (round to nearest, ties to even) and which has the two
      infinities, the signed zeros and not-a-number: sums and differences
      round and overflow here as they do in the source.  Coordinates, ranks
      and sizes are floats.
    - A Python exception is an [exn]; code that can raise returns an
      [Outcome].
    - The accumulator [store] of [_convert_to_blocks] holds mutable blocks;
      a block reference is modelled as the block's index in [store], and
      the in-place [texts.extend] as an update at that index.
    - [Rectangle], [OCRFragment], [Layout] and [LayoutClass] come from the
      package [doc_page_extractor]; their shape is taken from the way the
      source uses them and from the specification.  The image type, the
      page result, [clip] and [Rectangle.size] are parameters. *)

From Stdlib Require Import Floats Uint63 ZArith Lia String.
From stdpp Require Import base list.

(** ** Numbers *)

(** [a < b] on Python floats. *)
Definition float_ltb (a b : float) : bool := (a <? b)%float.

(** [a > b] is [b < a]. *)
Definition float_gtb (a b : float) : bool := float_ltb b a.

(** [a == b] on Python floats. *)
Definition float_eqb (a b : float) : bool := (a =? b)%float.

(** [a - b] on Python floats. *)
Definition float_sub (a b : float) : float := (a - b)%float.

(** Python's two-argument [min(a, b)]: [b] when [b < a], otherwise [a]. *)
Definition py_min (a b : float) : float :=
  if float_ltb b a then b else a.

(** Python's two-argument [max(a, b)]: [b] when [b > a], otherwise [a]. *)
Definition py_max (a b : float) : float :=
  if float_gtb b a then b else a.

(** The float a count is converted to in [float / int]: the nearest
    binary64 number (counts are below 2^63). *)
Definition float_of_nat (n : nat) : float :=
  PrimFloat.of_uint63 (Uint63.of_Z (Z.of_nat n)).

(** ** Exceptions *)

Inductive exn : Type :=
| AssertionError
| IndexError.

Inductive Outcome (A : Type) : Type :=
| Ok (a : A)
| Raise (e : exn).

Arguments Ok {A} a.
Arguments Raise {A} e.

Definition bind {A B : Type} (m : Outcome A) (k : A -> Outcome B) : Outcome B :=
  match m with
  | Ok a => k a
  | Raise e => Raise e
  end.

Notation "'let*' x ':=' m 'in' k" := (bind m (fun x => k))
  (at level 10, x name, m at level 100, k at level 200).

(** [l[0]] *)
Definition index_first {A : Type} (l : list A) : Outcome A :=
  match l !! 0%nat with
  | Some a => Ok a
  | None => Raise IndexError
  end.

(** [l[-1]] *)
Definition index_last {A : Type} (l : list A) : Outcome A :=
  match last l with
  | Some a => Ok a
  | None => Raise IndexError
  end.

(** ** Records of [doc_page_extractor] *)

Definition Point : Type := float * float.

(** Modelled from the spec: [Rectangle] is declared in [doc_page_extractor];
    it has the four corner points [lt], [rt], [lb], [rb], and iterating over
    it yields the corner points. *)
Module Rectangle.
Record t : Type := mk { lt : Point; rt : Point; lb : Point; rb : Point }.

(** [__iter__] *)
Definition iter (r : t) : list Point := [lt r; lb r; rb r; rt r].
End Rectangle.

(** Modelled from the spec: the ten region types of the layout classifier. *)
Module LayoutClass.
Inductive t : Type :=
| TITLE
| PLAIN_TEXT
| ABANDON
| FIGURE
| FIGURE_CAPTION
| TABLE
| TABLE_CAPTION
| TABLE_FOOTNOTE
| ISOLATE_FORMULA
| FORMULA_CAPTION.

#[global] Instance eq_dec : EqDecision t.
Proof. solve_decision. Defined.
End LayoutClass.

(** Modelled from the spec: a recognised fragment carries its string, its
    confidence rank and its rectangle. *)
Module OCRFragment.
Record t : Type := mk { text : string; rank : float; rect : Rectangle.t }.
End OCRFragment.

(** Modelled from the spec: a region carries its type tag, its rectangle and
    its ordered fragments. *)
Module Layout.
Record t : Type :=
  mk { cls : LayoutClass.t; rect : Rectangle.t; fragments : list OCRFragment.t }.
End Layout.

(** ** Records of the module *)

Module TextKind.
Inductive t : Type :=
| TITLE
| PLAIN_TEXT
| ABANDON.

#[global] Instance eq_dec : EqDecision t.
Proof. solve_decision. Defined.
End TextKind.

Module Text.
Record t : Type := mk { content : string; rank : float; rect : Rectangle.t }.
End Text.

Section Extractor.

(** The opaque image handle, the page result handed to [clip], [clip]
    itself and the [size] property of a rectangle ([(width, height)]). *)
Variable Image : Type.
Variable ExtractedResult : Type.
Variable clip : ExtractedResult -> Layout.t -> Image.
Variable size : Rectangle.t -> float * float.

(** [Block = TextBlock | AssetBlock] *)
Inductive Block : Type :=
| TextBlock (rect : Rectangle.t) (kind : TextKind.t) (texts : list Text.t)
    (has_paragraph_indentation : bool) (last_line_touch_end : bool)
| AssetBlock (rect : Rectangle.t) (image : Image) (texts : list Text.t).

Definition block_texts (b : Block) : list Text.t :=
  match b with
  | TextBlock _ _ texts _ _ => texts
  | AssetBlock _ _ texts => texts
  end.

(** [block.texts.extend(new)] *)
Definition texts_extend (b : Block) (new : list Text.t) : Block :=
  match b with
  | TextBlock rect kind texts ind touch => TextBlock rect kind (texts ++ new) ind touch
  | AssetBlock rect image texts => AssetBlock rect image (texts ++ new)
  end.

(** [isinstance(block, AssetBlock)] *)
Definition is_AssetBlock (b : Block) : bool :=
  match b with
  | AssetBlock _ _ _ => true
  | TextBlock _ _ _ _ _ => false
  end.

(** *** [_convert_to_text] *)

Definition _convert_to_text (fragments : list OCRFragment.t) : list Text.t :=
  map (fun f => Text.mk (OCRFragment.text f) (OCRFragment.rank f) (OCRFragment.rect f))
      fragments.

(** *** [_convert_to_blocks] *)

(** [store: list[tuple[LayoutClass, Block]]] *)
Local Abbreviation Store := (list (LayoutClass.t * Block)).

(** The loop of [previous_block], with [n] the number of indices still to
    visit: the index visited is [n - 1], going down to [0]. *)
Fixpoint previous_block_from (cls : LayoutClass.t) (store : Store) (n : nat)
  : option (nat * Block) :=
  match n with
  | O => None
  | S i =>
      match store !! i with
      | Some (block_cls, block) =>
          if bool_decide (cls = block_cls) then Some (i, block)
          else if negb (bool_decide (cls = LayoutClass.ABANDON)) then None
          else previous_block_from cls store i
      | None => None
      end
  end.

(** [previous_block(cls)]: the block found and its index in [store]. *)
Definition previous_block (store : Store) (cls : LayoutClass.t) : option (nat * Block) :=
  previous_block_from cls store (length store).

(** The body shared by the three caption branches:
    [block = previous_block(target)], then, when a block is found, the
    assertion and [block.texts.extend(...)]. *)
Definition merge_caption (store : Store) (target : LayoutClass.t)
    (fragments : list OCRFragment.t) : Outcome Store :=
  match previous_block store target with
  | None => Ok store
  | Some (i, block) =>
      if is_AssetBlock block
      then Ok (alter (fun e => (e.1, texts_extend e.2 (_convert_to_text fragments))) i store)
      else Raise AssertionError
  end.

(** One iteration of [for layout in layouts]. *)
Definition convert_layout (result : ExtractedResult) (store : Store) (layout : Layout.t)
  : Outcome Store :=
  let cls := Layout.cls layout in
  match cls with
  | LayoutClass.TITLE =>
      Ok (store ++ [(cls, TextBlock (Layout.rect layout) TextKind.TITLE
                            (_convert_to_text (Layout.fragments layout)) false false)])
  | LayoutClass.PLAIN_TEXT =>
      Ok (store ++ [(cls, TextBlock (Layout.rect layout) TextKind.PLAIN_TEXT
                            (_convert_to_text (Layout.fragments layout)) false false)])
  | LayoutClass.ABANDON =>
      Ok (store ++ [(cls, TextBlock (Layout.rect layout) TextKind.ABANDON
                            (_convert_to_text (Layout.fragments layout)) false false)])
  | LayoutClass.FIGURE | LayoutClass.TABLE | LayoutClass.ISOLATE_FORMULA =>
      Ok (store ++ [(cls, AssetBlock (Layout.rect layout) (clip result layout) [])])
  | LayoutClass.FIGURE_CAPTION =>
      merge_caption store LayoutClass.FIGURE (Layout.fragments layout)
  | LayoutClass.TABLE_CAPTION | LayoutClass.TABLE_FOOTNOTE =>
      merge_caption store LayoutClass.TABLE (Layout.fragments layout)
  | LayoutClass.FORMULA_CAPTION =>
      merge_caption store LayoutClass.ISOLATE_FORMULA (Layout.fragments layout)
  end.

(** The loop [for layout in layouts], from a given [store]. *)
Fixpoint convert_layouts (result : ExtractedResult) (store : Store) (layouts : list Layout.t)
  : Outcome Store :=
  match layouts with
  | [] => Ok store
  | layout :: rest =>
      let* store' := convert_layout result store layout in
      convert_layouts result store' rest
  end.

Definition _convert_to_blocks (result : ExtractedResult) (layouts : list Layout.t)
  : Outcome (list Block) :=
  let* store := convert_layouts result [] layouts in
  Ok (map snd store).

(** *** [_texts_range] *)

Record RangeAcc : Type := mkAcc {
  sum_lines_height : float;
  texts_count : nat;
  acc_x1 : float;
  acc_x2 : float
}.

(** [for x, _ in text.rect] *)
Definition range_point (acc : RangeAcc) (p : Point) : RangeAcc :=
  mkAcc (sum_lines_height acc) (texts_count acc)
        (py_min (acc_x1 acc) p.1) (py_max (acc_x2 acc) p.1).

(** [for text in block.texts] *)
Definition range_text (acc : RangeAcc) (text : Text.t) : RangeAcc :=
  fold_left range_point (Rectangle.iter (Text.rect text))
    (mkAcc (sum_lines_height acc + (size (Text.rect text)).2)%float
           (S (texts_count acc)) (acc_x1 acc) (acc_x2 acc)).

(** [for block in blocks] *)
Definition range_block (acc : RangeAcc) (block : Block) : RangeAcc :=
  match block with
  | AssetBlock _ _ _ => acc
  | TextBlock _ kind texts _ _ =>
      if bool_decide (kind = TextKind.ABANDON) then acc
      else fold_left range_text texts acc
  end.

Definition _texts_range (blocks : list Block) : float * float * float :=
  let acc := fold_left range_block blocks (mkAcc 0%float 0 infinity neg_infinity) in
  if (texts_count acc =? 0)%nat then (0%float, 0%float, 0%float)
  else ((sum_lines_height acc / float_of_nat (texts_count acc))%float,
        acc_x1 acc, acc_x2 acc).

(** *** [extract] *)

(** The body of [for block in blocks] in [extract]; the block returned is
    the block after the two assignments. *)
Definition classify_block (page_range : float * float * float) (block : Block)
  : Outcome Block :=
  match block with
  | AssetBlock _ _ _ => Ok block
  | TextBlock rect kind texts _ _ =>
      if bool_decide (kind = TextKind.ABANDON) then Ok block
      else
        let '(mean_line_height, x1, x2) :=
          if (length texts =? 1)%nat then page_range else _texts_range [block] in
        let* first_text := index_first texts in
        let* last_text := index_last texts in
        let first_delta_x :=
          float_sub (((Rectangle.lt (Text.rect first_text)).1
                      + (Rectangle.lb (Text.rect first_text)).1) / 2)%float x1 in
        let last_delta_x :=
          float_sub x2 (((Rectangle.rt (Text.rect last_text)).1
                         + (Rectangle.rb (Text.rect last_text)).1) / 2)%float in
        Ok (TextBlock rect kind texts
              (float_gtb first_delta_x mean_line_height)
              (float_ltb last_delta_x mean_line_height))
  end.

Fixpoint classify_blocks (page_range : float * float * float) (blocks : list Block)
  : Outcome (list Block) :=
  match blocks with
  | [] => Ok []
  | block :: rest =>
      let* block' := classify_block page_range block in
      let* rest' := classify_blocks page_range rest in
      Ok (block' :: rest')
  end.

(** One iteration of the page loop of [extract]: the list yielded for the
    page, or the exception that ends the generator. *)
Definition extract_page (result : ExtractedResult) (layouts : list Layout.t)
  : Outcome (list Block) :=
  let* blocks := _convert_to_blocks result layouts in
  let page_range := _texts_range blocks in
  classify_blocks page_range blocks.

(** [extract] over the pages the document extractor produces: the lists
    yielded, and the exception that stopped the generator, when one did. *)
Fixpoint extract (pages : list (ExtractedResult * list Layout.t))
  : list (list Block) * option exn :=
  match pages with
  | [] => ([], None)
  | (result, layouts) :: rest =>
      match extract_page result layouts with
      | Ok blocks => let '(yielded, e) := extract rest in (blocks :: yielded, e)
      | Raise e => ([], Some e)
      end
  end.

End Extractor.

Arguments TextBlock {Image} rect kind texts has_paragraph_indentation last_line_touch_end.
Arguments AssetBlock {Image} rect image texts.
Arguments block_texts {Image} b.
Arguments texts_extend {Image} b new.
Arguments is_AssetBlock {Image} b.
Arguments previous_block_from {Image} cls store n.
Arguments previous_block {Image} store cls.
Arguments merge_caption {Image} store target fragments.
Arguments convert_layout {Image ExtractedResult} clip result store layout.
Arguments convert_layouts {Image ExtractedResult} clip result store layouts.
Arguments _convert_to_blocks {Image ExtractedResult} clip result layouts.
Arguments range_block {Image} size acc block.
Arguments _texts_range {Image} size blocks.
Arguments classify_block {Image} size page_range block.
Arguments classify_blocks {Image} size page_range blocks.
Arguments extract_page {Image ExtractedResult} clip size result layouts.
Arguments extract {Image ExtractedResult} clip size pages.

(** ** Concrete pages

    Sample regions for the closed examples.  The rectangles are
    axis-parallel; on those the length of a side is [|dx| + |dy|] (one of
    the two is 0), and [axis_size] is the [Rectangle.size] the examples
    use: the mean of the two horizontal sides and the mean of the two
    vertical sides.  The source reads the second component only. *)
Module Samples.

Definition side (p1 p2 : Point) : float :=
  (abs (p1.1 - p2.1) + abs (p1.2 - p2.2))%float.

Definition axis_size (r : Rectangle.t) : float * float :=
  (((side (Rectangle.lb r) (Rectangle.rb r) + side (Rectangle.rt r) (Rectangle.lt r)) / 2)%float,
   ((side (Rectangle.lt r) (Rectangle.lb r) + side (Rectangle.rb r) (Rectangle.rt r)) / 2)%float).

(** The rectangle with left edge [x0], top edge [y0], right edge [x1] and
    bottom edge [y1]. *)
Definition box (x0 y0 x1 y1 : float) : Rectangle.t :=
  Rectangle.mk (x0, y0) (x1, y0) (x0, y1) (x1, y1).

Definition line (s : string) (r : Rectangle.t) : OCRFragment.t :=
  OCRFragment.mk s 1%float r.

(** The image handle is the rectangle it was clipped to. *)
Definition clip_rect (_ : unit) (layout : Layout.t) : Rectangle.t :=
  Layout.rect layout.

Definition figure : Layout.t :=
  Layout.mk LayoutClass.FIGURE (box 0 0 100 50) [].

Definition table : Layout.t :=
  Layout.mk LayoutClass.TABLE (box 0 0 100 50) [].

Definition page_header : Layout.t :=
  Layout.mk LayoutClass.ABANDON (box 0 52 100 56) [line "7" (box 48 52 52 56)].

Definition figure_caption : Layout.t :=
  Layout.mk LayoutClass.FIGURE_CAPTION (box 0 60 100 70)
    [line "Figure 1" (box 0 60 40 70)].

(** FIGURE, ABANDON, FIGURE_CAPTION. *)
Definition figure_abandon_caption : list Layout.t :=
  [figure; page_header; figure_caption].


(** A paragraph of two lines of height 10; the first line starts at
    x = 10, the second at x = 0, both end at x = 100. *)
Definition paragraph : Layout.t :=
  Layout.mk LayoutClass.PLAIN_TEXT (box 0 0 100 20)
    [line "a" (box 10 0 100 10); line "b" (box 0 10 100 20)].

(** A title of one line. *)
Definition title : Layout.t :=
  Layout.mk LayoutClass.TITLE (box 30 0 70 10) [line "t" (box 30 0 70 10)].

(** A paragraph region for which the OCR found no line. *)
Definition empty_paragraph : Layout.t :=
  Layout.mk LayoutClass.PLAIN_TEXT (box 0 0 100 20) [].

(** The TextBlock the assembler makes of a TITLE, PLAIN_TEXT or ABANDON
    region, with the given flags. *)
Definition text_block (kind : TextKind.t) (layout : Layout.t) (ind touch : bool)
  : Block Rectangle.t :=
  TextBlock (Layout.rect layout) kind (_convert_to_text (Layout.fragments layout))
    ind touch.

(** The AssetBlock the assembler makes of an asset region, with the
    fragments of the given caption regions merged into it. *)
Definition asset_block (layout : Layout.t) (captions : list Layout.t)
  : Block Rectangle.t :=
  AssetBlock (Layout.rect layout) (clip_rect tt layout)
    (flat_map (fun caption => _convert_to_text (Layout.fragments caption)) captions).

(** An accumulator no run of the assembler produces: a TextBlock filed
    under FIGURE. *)
Definition mistyped_store : list (LayoutClass.t * Block Rectangle.t) :=
  [(LayoutClass.FIGURE, text_block TextKind.PLAIN_TEXT paragraph false false)].

(** A caption and a footnote of a table. *)
Definition table_caption : Layout.t :=
  Layout.mk LayoutClass.TABLE_CAPTION (box 0 52 100 60)
    [line "Table 1" (box 0 52 40 60)].

Definition table_footnote : Layout.t :=
  Layout.mk LayoutClass.TABLE_FOOTNOTE (box 0 62 100 70)
    [line "n = 12" (box 0 62 30 70)].

(** A paragraph of three lines of height 1, 2 and 4. *)
Definition uneven_paragraph : Layout.t :=
  Layout.mk LayoutClass.PLAIN_TEXT (box 0 0 10 7)
    [line "a" (box 0 0 10 1); line "b" (box 0 1 10 3); line "c" (box 0 3 10 7)].

(** A paragraph of two lines of height 10 whose first line starts at
    x = 12.8 and whose second line starts at x = 2.8 (the nearest binary64
    numbers); both end at x = 430.7. *)
Definition rounded_paragraph : Layout.t :=
  Layout.mk LayoutClass.PLAIN_TEXT
    (box 0x1.6666666666666p+1 0 0x1.aeb3333333333p+8 20)
    [line "a" (box 0x1.999999999999ap+3 0 0x1.aeb3333333333p+8 10);
     line "b" (box 0x1.6666666666666p+1 10 0x1.aeb3333333333p+8 20)].


(** The blocks of a page with a paragraph, a page header and a figure with
    its caption. *)
Definition sample_page : list (Block Rectangle.t) :=
  [text_block TextKind.PLAIN_TEXT paragraph false false;
   text_block TextKind.ABANDON page_header false false;
   asset_block figure [figure_caption]].

End Samples.

(** ** Vocabulary of the specification *)

(** The four caption region types. *)
Definition is_caption (cls : LayoutClass.t) : bool :=
  match cls with
  | LayoutClass.FIGURE_CAPTION | LayoutClass.TABLE_CAPTION
  | LayoutClass.TABLE_FOOTNOTE | LayoutClass.FORMULA_CAPTION => true
  | _ => false
  end.

(** The asset type a caption type belongs to. *)
Definition caption_target (cls : LayoutClass.t) : option LayoutClass.t :=
  match cls with
  | LayoutClass.FIGURE_CAPTION => Some LayoutClass.FIGURE
  | LayoutClass.TABLE_CAPTION | LayoutClass.TABLE_FOOTNOTE => Some LayoutClass.TABLE
  | LayoutClass.FORMULA_CAPTION => Some LayoutClass.ISOLATE_FORMULA
  | _ => None
  end.

(** The non-caption regions of a page, in input order. *)
Definition kept_regions (layouts : list Layout.t) : list Layout.t :=
  List.filter (fun layout => negb (is_caption (Layout.cls layout))) layouts.

(** A TITLE or PLAIN_TEXT region without any fragment. *)
Definition empty_text_region (layout : Layout.t) : Prop :=
  (Layout.cls layout = LayoutClass.TITLE \/ Layout.cls layout = LayoutClass.PLAIN_TEXT)
  /\ Layout.fragments layout = [].

Definition left_midpoint (text : Text.t) : float :=
  (((Rectangle.lt (Text.rect text)).1 + (Rectangle.lb (Text.rect text)).1) / 2)%float.

Definition right_midpoint (text : Text.t) : float :=
  (((Rectangle.rt (Text.rect text)).1 + (Rectangle.rb (Text.rect text)).1) / 2)%float.

(** The two comparisons of the shape classifier against given statistics. *)
Definition shape_flags (stats : float * float * float) (first_text last_text : Text.t)
  : bool * bool :=
  let '(mean_line_height, x1, x2) := stats in
  (float_gtb (float_sub (left_midpoint first_text) x1) mean_line_height,
   float_ltb (float_sub x2 (right_midpoint last_text)) mean_line_height).

(** The x-coordinates of all corner points of the given Text entries. *)
Definition corner_xs (texts : list Text.t) : list float :=
  flat_map (fun text => map fst (Rectangle.iter (Text.rect text))) texts.

(** The mean of a list of floats in float arithmetic: the sum taken from
    0.0 in list order, divided by the number of entries. *)
Definition mean (l : list float) : float :=
  (fold_left PrimFloat.add l 0 / float_of_nat (length l))%float.

(** [m] is an entry of [l] and no entry of [l] is less than [m]. *)
Definition is_minimum (m : float) (l : list float) : Prop :=
  m ∈ l /\ Forall (fun x => float_ltb x m = false) l.

(** [m] is an entry of [l] and no entry of [l] is greater than [m]. *)
Definition is_maximum (m : float) (l : list float) : Prop :=
  m ∈ l /\ Forall (fun x => float_ltb m x = false) l.


Section Vocabulary.

Context {Image ExtractedResult : Type}.
Variable clip : ExtractedResult -> Layout.t -> Image.
Variable size : Rectangle.t -> float * float.

(** The block a non-caption region stands for in the output: a TextBlock of
    the matching kind with the region's fragments and both flags false, or
    an AssetBlock with the clipped image (its texts are the captions merged
    into it). *)
Definition block_of_region (result : ExtractedResult) (layout : Layout.t) (b : Block Image)
  : Prop :=
  match Layout.cls layout with
  | LayoutClass.TITLE =>
      b = TextBlock (Layout.rect layout) TextKind.TITLE
            (_convert_to_text (Layout.fragments layout)) false false
  | LayoutClass.PLAIN_TEXT =>
      b = TextBlock (Layout.rect layout) TextKind.PLAIN_TEXT
            (_convert_to_text (Layout.fragments layout)) false false
  | LayoutClass.ABANDON =>
      b = TextBlock (Layout.rect layout) TextKind.ABANDON
            (_convert_to_text (Layout.fragments layout)) false false
  | LayoutClass.FIGURE | LayoutClass.TABLE | LayoutClass.ISOLATE_FORMULA =>
      exists texts, b = AssetBlock (Layout.rect layout) (clip result layout) texts
  | _ => False
  end.

(** The entry a non-caption region contributes to the accumulator: its
    class and its block. *)
Definition entry_of_region (result : ExtractedResult) (layout : Layout.t)
    (e : LayoutClass.t * Block Image) : Prop :=
  e.1 = Layout.cls layout /\ block_of_region result layout e.2.

(** A block the shape classifier processes: a TextBlock that is not ABANDON. *)
Definition processed (b : Block Image) : Prop :=
  match b with
  | TextBlock _ kind _ _ _ => kind <> TextKind.ABANDON
  | AssetBlock _ _ _ => False
  end.

(** Both flags of a TextBlock are false. *)
Definition flags_false (b : Block Image) : Prop :=
  match b with
  | TextBlock _ _ _ ind touch => ind = false /\ touch = false
  | AssetBlock _ _ _ => True
  end.

(** Two blocks agree on everything but the two flags. *)
Definition same_but_flags (b b' : Block Image) : Prop :=
  match b, b' with
  | TextBlock rect kind texts _ _, TextBlock rect' kind' texts' _ _ =>
      rect = rect' /\ kind = kind' /\ texts = texts'
  | AssetBlock rect image texts, AssetBlock rect' image' texts' =>
      rect = rect' /\ image = image' /\ texts = texts'
  | _, _ => False
  end.

(** The Text entries the Geometry Analyzer counts: those of the TextBlocks
    that are not ABANDON. *)
Definition counted_texts (blocks : list (Block Image)) : list Text.t :=
  flat_map (fun b =>
              match b with
              | TextBlock _ kind texts _ _ =>
                  if bool_decide (kind = TextKind.ABANDON) then [] else texts
              | AssetBlock _ _ _ => []
              end) blocks.

Definition heights (texts : list Text.t) : list float :=
  map (fun text => (size (Text.rect text)).2) texts.

(** The statistics a block is compared against: those of the page for a
    block of one line, those of the block alone otherwise. *)
Definition baseline (page : list (Block Image)) (b : Block Image)
  : float * float * float :=
  if (length (block_texts b) =? 1)%nat then _texts_range size page
  else _texts_range size [b].

End Vocabulary.

(** * Properties *)

(** ** Comparisons of binary64 numbers *)

Lemma SFcompare_refl_not_Lt (s : spec_float) : SFcompare s s <> Some Lt.
Proof.
  destruct s as [b|b| |b m e]; simpl; try destruct b; try discriminate;
    rewrite Z.compare_refl, Pos.compare_cont_refl; discriminate.
Qed.

Lemma Pcompare_Lt_trans (a b c : positive) :
  Pos.compare_cont Eq a b = Lt -> Pos.compare_cont Eq b c = Lt ->
  Pos.compare_cont Eq a c = Lt.
Proof.
  change (Pos.compare_cont Eq) with Pos.compare.
  rewrite !Pos.compare_lt_iff. apply Pos.lt_trans.
Qed.

Lemma Pcompare_Gt_trans (a b c : positive) :
  Pos.compare_cont Eq a b = Gt -> Pos.compare_cont Eq b c = Gt ->
  Pos.compare_cont Eq a c = Gt.
Proof.
  change (Pos.compare_cont Eq) with Pos.compare.
  rewrite !Pos.compare_gt_iff. intros H1 H2. exact (Pos.lt_trans _ _ _ H2 H1).
Qed.

Lemma SFcompare_Lt_trans (a b c : spec_float) :
  SFcompare a b = Some Lt -> SFcompare b c = Some Lt -> SFcompare a c = Some Lt.
Proof.
  destruct a as [sa|sa| |sa ma ea], b as [sb|sb| |sb mb eb], c as [sc|sc| |sc mc ec];
    simpl; try discriminate; try reflexivity;
    try destruct sa; try destruct sb; try destruct sc;
    simpl; try discriminate; try reflexivity.
  all: destruct (Z.compare_spec ea eb) as [Hab|Hab|Hab],
         (Z.compare_spec eb ec) as [Hbc|Hbc|Hbc],
         (Z.compare_spec ea ec) as [Hac|Hac|Hac];
       subst; try lia; try discriminate; try reflexivity.
  all: intros H1 H2; f_equal.
  - destruct (Pos.compare_cont Eq ma mb) eqn:E1; try discriminate.
    destruct (Pos.compare_cont Eq mb mc) eqn:E2; try discriminate.
    rewrite (Pcompare_Gt_trans _ _ _ E1 E2). reflexivity.
  - injection H1 as H1. injection H2 as H2.
    exact (Pcompare_Lt_trans _ _ _ H1 H2).
Qed.

Lemma SFcompare_Eq_sym (a b : spec_float) :
  SFcompare a b = Some Eq -> SFcompare b a = Some Eq.
Proof.
  destruct a as [sa|sa| |sa ma ea], b as [sb|sb| |sb mb eb];
    simpl; try discriminate; try reflexivity;
    try destruct sa; try destruct sb; simpl; try discriminate; try reflexivity.
  all: destruct (Z.compare_spec ea eb); try discriminate; subst;
       intros H; injection H as H;
       destruct (Pos.compare_cont Eq ma mb) eqn:E; try discriminate;
       apply Pos.compare_eq in E; subst;
       rewrite Z.compare_refl, Pos.compare_cont_refl; reflexivity.
Qed.




(** [<] is irreflexive, also at not-a-number. *)
Lemma float_ltb_irrefl (x : float) : float_ltb x x = false.
Proof.
  unfold float_ltb. rewrite FloatAxioms.ltb_spec. unfold SFltb.
  pose proof (SFcompare_refl_not_Lt (Prim2SF x)) as H.
  destruct (SFcompare (Prim2SF x) (Prim2SF x)) as [[| |]|]; congruence.
Qed.

(** [<] is transitive. *)
Lemma float_ltb_trans (x y z : float) :
  float_ltb x y = true -> float_ltb y z = true -> float_ltb x z = true.
Proof.
  unfold float_ltb. rewrite !FloatAxioms.ltb_spec. unfold SFltb. intros H1 H2.
  destruct (SFcompare (Prim2SF x) (Prim2SF y)) as [[| |]|] eqn:E1; try discriminate.
  destruct (SFcompare (Prim2SF y) (Prim2SF z)) as [[| |]|] eqn:E2; try discriminate.
  rewrite (SFcompare_Lt_trans _ _ _ E1 E2). reflexivity.
Qed.

(** Two floats that are [==] are not [<] either way. *)
Lemma float_eqb_not_ltb (x y : float) :
  float_eqb x y = true -> float_ltb x y = false /\ float_ltb y x = false.
Proof.
  unfold float_eqb, float_ltb.
  rewrite FloatAxioms.eqb_spec, !FloatAxioms.ltb_spec. unfold SFeqb, SFltb. intros H.
  destruct (SFcompare (Prim2SF x) (Prim2SF y)) as [[| |]|] eqn:E; try discriminate.
  rewrite (SFcompare_Eq_sym _ _ E). auto.
Qed.


(** ** The outcome monad *)

Lemma bind_Ok {A B : Type} (m : Outcome A) (k : A -> Outcome B) (b : B) :
  bind m k = Ok b -> exists a, m = Ok a /\ k a = Ok b.
Proof. destruct m as [a|e]; simpl; [eauto | discriminate]. Qed.

Lemma bind_Raise {A B : Type} (m : Outcome A) (k : A -> Outcome B) (e : exn) :
  bind m k = Raise e -> m = Raise e \/ exists a, m = Ok a /\ k a = Raise e.
Proof. destruct m as [a|e']; simpl; [eauto | intros [= ->]; auto]. Qed.

(** ** The Block Assembler *)

Section Assembler.

Context {Image ExtractedResult : Type}.
Variable clip : ExtractedResult -> Layout.t -> Image.

Implicit Types (store : list (LayoutClass.t * Block Image)) (cls target : LayoutClass.t).

(** What the search returns is an entry of the accumulator, of the class
    asked for. *)
Lemma previous_block_from_lookup cls store n i block :
  previous_block_from cls store n = Some (i, block) ->
  (i < n)%nat /\ store !! i = Some (cls, block).
Proof.
  induction n as [|n IH]; simpl; [intros [=]|].
  destruct (store !! n) as [[block_cls b]|] eqn:E; [|intros [=]].
  destruct (bool_decide (cls = block_cls)) eqn:Hc.
  - apply bool_decide_eq_true in Hc. intros H. simplify_eq. split; [lia | assumption].
  - destruct (negb _); [intros [=]|].
    intros H. destruct (IH H). split; [lia | assumption].
Qed.

Lemma previous_block_lookup store cls i block :
  previous_block store cls = Some (i, block) -> store !! i = Some (cls, block).
Proof. intros H. apply previous_block_from_lookup in H. tauto. Qed.

(** For a class other than ABANDON the search looks at the last entry
    only: the test that ends it compares the class searched for, not the
    class of the entry, with ABANDON. *)
Lemma previous_block_last store cls :
  cls <> LayoutClass.ABANDON ->
  previous_block store cls =
    match last store with
    | Some (block_cls, block) =>
        if bool_decide (cls = block_cls) then Some (pred (length store), block) else None
    | None => None
    end.
Proof.
  intros Hc. unfold previous_block. rewrite last_lookup.
  destruct (length store) as [|n] eqn:Hlen; simpl.
  - apply nil_length_inv in Hlen. subst store. reflexivity.
  - destruct (store !! n) as [[block_cls block]|]; [|reflexivity].
    destruct (bool_decide (cls = block_cls)); [reflexivity|].
    rewrite (bool_decide_eq_false_2 _ Hc). reflexivity.
Qed.

Lemma kept_regions_app (l1 l2 : list Layout.t) :
  kept_regions (l1 ++ l2) = kept_regions l1 ++ kept_regions l2.
Proof. apply List.filter_app. Qed.

Lemma kept_regions_caption (layout : Layout.t) :
  is_caption (Layout.cls layout) = true -> kept_regions [layout] = [].
Proof. unfold kept_regions. simpl. intros ->. reflexivity. Qed.

Lemma kept_regions_block (layout : Layout.t) :
  is_caption (Layout.cls layout) = false -> kept_regions [layout] = [layout].
Proof. unfold kept_regions. simpl. intros ->. reflexivity. Qed.

(** A merge into an accumulator built by the assembler finds an AssetBlock
    whenever it finds a block, and changes the texts of that block only. *)
Lemma merge_caption_ok result pre store target fragments :
  target = LayoutClass.FIGURE \/ target = LayoutClass.TABLE
    \/ target = LayoutClass.ISOLATE_FORMULA ->
  Forall2 (entry_of_region clip result) pre store ->
  exists store', merge_caption store target fragments = Ok store'
                 /\ Forall2 (entry_of_region clip result) pre store'.
Proof.
  intros Ht Hinv. unfold merge_caption.
  destruct (previous_block store target) as [[i block]|] eqn:E; [|eauto].
  apply previous_block_lookup in E.
  destruct (Forall2_lookup_r _ _ _ _ _ Hinv E) as (layout & Hl & Hcls & Hb).
  simpl in Hcls, Hb. unfold block_of_region in Hb. rewrite <- Hcls in Hb.
  assert (exists texts, block = AssetBlock (Layout.rect layout) (clip result layout) texts)
    as [texts ->] by (destruct Ht as [->|[->| ->]]; exact Hb).
  simpl. eexists. split; [reflexivity|].
  apply Forall2_alter_r; [assumption|].
  intros layout' e Hl' He _. rewrite Hl in Hl'. rewrite E in He.
  injection Hl' as <-. injection He as <-. simpl.
  split; [assumption|].
  unfold block_of_region. rewrite <- Hcls.
  destruct Ht as [->|[->| ->]]; eexists; reflexivity.
Qed.

Lemma convert_layout_ok result pre store layout :
  Forall2 (entry_of_region clip result) (kept_regions pre) store ->
  exists store', convert_layout clip result store layout = Ok store'
                 /\ Forall2 (entry_of_region clip result) (kept_regions (pre ++ [layout])) store'.
Proof.
  intros Hinv. rewrite kept_regions_app.
  unfold convert_layout.
  destruct (Layout.cls layout) eqn:Hcls;
    try (rewrite kept_regions_block by (rewrite Hcls; reflexivity);
         eexists; split; [reflexivity|];
         apply Forall2_app; [assumption|];
         constructor; [|constructor];
         split; simpl; [congruence|];
         unfold block_of_region; rewrite Hcls; eauto);
    rewrite kept_regions_caption by (rewrite Hcls; reflexivity);
    rewrite app_nil_r; apply merge_caption_ok; auto.
Qed.

Lemma convert_layouts_ok result pre store layouts :
  Forall2 (entry_of_region clip result) (kept_regions pre) store ->
  exists store', convert_layouts clip result store layouts = Ok store'
                 /\ Forall2 (entry_of_region clip result) (kept_regions (pre ++ layouts)) store'.
Proof.
  revert pre store. induction layouts as [|layout rest IH]; intros pre store Hinv.
  - rewrite app_nil_r. simpl. eauto.
  - destruct (convert_layout_ok result pre store layout Hinv) as (store1 & E1 & Hinv1).
    destruct (IH _ _ Hinv1) as (store' & E & Hinv').
    exists store'. simpl. rewrite E1. simpl. rewrite E.
    split; [reflexivity|]. rewrite <- app_assoc in Hinv'. exact Hinv'.
Qed.

(** [_convert_to_blocks] returns, and its blocks are those of the
    non-caption regions, in order. *)
Lemma convert_to_blocks_ok result layouts :
  exists blocks, _convert_to_blocks clip result layouts = Ok blocks
                 /\ Forall2 (block_of_region clip result) (kept_regions layouts) blocks.
Proof.
  destruct (convert_layouts_ok result [] [] layouts) as (store & E & Hinv);
    [constructor|].
  exists (map snd store). unfold _convert_to_blocks. rewrite E. simpl.
  split; [reflexivity|].
  simpl in Hinv. apply Forall2_fmap_r.
  eapply Forall2_impl; [exact Hinv|]. intros layout e [_ H]. exact H.
Qed.

Lemma convert_layouts_app result store l1 l2 :
  convert_layouts clip result store (l1 ++ l2) =
    bind (convert_layouts clip result store l1)
         (fun store' => convert_layouts clip result store' l2).
Proof.
  revert store. induction l1 as [|layout l1 IH]; intros store; simpl; [reflexivity|].
  destruct (convert_layout clip result store layout); simpl; [apply IH | reflexivity].
Qed.

(** An ABANDON entry at the end of the accumulator ends the search for any
    asset type without a match, whatever precedes it. *)
Lemma previous_block_after_abandon store block target :
  target <> LayoutClass.ABANDON ->
  previous_block (store ++ [(LayoutClass.ABANDON, block)]) target = None.
Proof.
  intros Ht. rewrite previous_block_last by assumption.
  rewrite last_snoc. rewrite bool_decide_eq_false_2 by assumption. reflexivity.
Qed.

(** C6. For every region list the assembler returns, and its output holds
    exactly one block per non-caption region, in the order of those regions:
    the output and the list of non-caption regions have the same length and
    correspond position by position (a TextBlock of the region's kind,
    rectangle and fragments, or an AssetBlock of the region's rectangle and
    clipped image); caption regions contribute no entry. *)
Theorem convert_to_blocks_one_block_per_region result layouts :
  exists blocks,
    _convert_to_blocks clip result layouts = Ok blocks
    /\ length blocks = length (kept_regions layouts)
    /\ Forall2 (block_of_region clip result) (kept_regions layouts) blocks
    /\ Forall (fun layout => is_caption (Layout.cls layout) = false) (kept_regions layouts).
Proof.
  destruct (convert_to_blocks_ok result layouts) as (blocks & E & H).
  exists blocks. split; [exact E|]. split; [|split; [exact H|]].
  - symmetry. eapply Forall2_length. exact H.
  - apply Forall_forall. intros layout Hin.
    apply list_elem_of_In, List.filter_In in Hin. destruct Hin as [_ Hin].
    apply Bool.negb_true_iff in Hin. exact Hin.
Qed.

(** C7. A caption region whose backward search finds no block is dropped:
    the iteration raises nothing and leaves the accumulator as it is, so the
    page with the caption yields the blocks of the page without it. *)
Theorem unmatched_caption_dropped result pre store caption target :
  caption_target (Layout.cls caption) = Some target ->
  previous_block store target = None ->
  convert_layout clip result store caption = Ok store
  /\ (convert_layouts clip result [] pre = Ok store ->
      _convert_to_blocks clip result (pre ++ [caption]) = Ok (map snd store)
      /\ _convert_to_blocks clip result pre = Ok (map snd store)).
Proof.
  intros Ht Hnone.
  assert (convert_layout clip result store caption = Ok store) as Hstep.
  { unfold convert_layout.
    destruct (Layout.cls caption); simpl in Ht; try discriminate;
      injection Ht as <-; unfold merge_caption; rewrite Hnone; reflexivity. }
  split; [exact Hstep|].
  intros Hpre. unfold _convert_to_blocks.
  rewrite convert_layouts_app, Hpre. simpl. rewrite Hstep. auto.
Qed.

(** C8. When the backward search of a caption region resolves to a block
    that is not an AssetBlock, the iteration raises AssertionError and no
    block is changed; and on the accumulator the assembler builds itself
    this never happens: [_convert_to_blocks] returns for every region
    list. *)
Theorem caption_target_assertion :
  (forall result store caption target i block,
     caption_target (Layout.cls caption) = Some target ->
     previous_block store target = Some (i, block) ->
     is_AssetBlock block = false ->
     convert_layout clip result store caption = Raise AssertionError)
  /\ (forall result layouts,
        exists blocks, _convert_to_blocks clip result layouts = Ok blocks).
Proof.
  split.
  - intros result store caption target i block Ht Hfound Hasset.
    unfold convert_layout.
    destruct (Layout.cls caption); simpl in Ht; try discriminate;
      injection Ht as <-; unfold merge_caption; rewrite Hfound, Hasset; reflexivity.
  - intros result layouts.
    destruct (convert_to_blocks_ok result layouts) as (blocks & E & _). eauto.
Qed.

End Assembler.

(** ** The Geometry Analyzer *)

(** Folding [min] over a list: the result is the start value, or an entry
    of the list below the start value; and no entry is less than it. *)
Lemma fold_py_min_spec (xs : list float) (a : float) :
  (fold_left py_min xs a = a
   \/ (fold_left py_min xs a ∈ xs /\ float_ltb (fold_left py_min xs a) a = true))
  /\ Forall (fun x => float_ltb x (fold_left py_min xs a) = false) xs.
Proof.
  revert a. induction xs as [|x xs IH]; intros a; cbn [fold_left].
  - split; [left; reflexivity | constructor].
  - replace (py_min a x) with (if float_ltb x a then x else a) by reflexivity.
    destruct (float_ltb x a) eqn:E.
    + destruct (IH x) as [[Hr | [Hin Hlt]] Hall].
      * rewrite Hr. split.
        { right. split; [left | exact E]. }
        constructor; [apply float_ltb_irrefl | rewrite Hr in Hall; exact Hall].
      * split.
        { right. split; [right; exact Hin | exact (float_ltb_trans _ _ _ Hlt E)]. }
        constructor; [|exact Hall].
        destruct (float_ltb x (fold_left py_min xs x)) eqn:E'; [|reflexivity].
        rewrite <- (float_ltb_irrefl x). symmetry.
        exact (float_ltb_trans _ _ _ E' Hlt).
    + destruct (IH a) as [[Hr | [Hin Hlt]] Hall].
      * rewrite Hr. split; [left; reflexivity|].
        constructor; [exact E | rewrite Hr in Hall; exact Hall].
      * split.
        { right. split; [right; exact Hin | exact Hlt]. }
        constructor; [|exact Hall].
        destruct (float_ltb x (fold_left py_min xs a)) eqn:E'; [|reflexivity].
        rewrite <- E. symmetry. exact (float_ltb_trans _ _ _ E' Hlt).
Qed.

(** Folding [max] over a list: the result is the start value, or an entry
    of the list above the start value; and no entry is greater than it. *)
Lemma fold_py_max_spec (xs : list float) (a : float) :
  (fold_left py_max xs a = a
   \/ (fold_left py_max xs a ∈ xs /\ float_ltb a (fold_left py_max xs a) = true))
  /\ Forall (fun x => float_ltb (fold_left py_max xs a) x = false) xs.
Proof.
  revert a. induction xs as [|x xs IH]; intros a; cbn [fold_left].
  - split; [left; reflexivity | constructor].
  - replace (py_max a x) with (if float_ltb a x then x else a) by reflexivity.
    destruct (float_ltb a x) eqn:E.
    + destruct (IH x) as [[Hr | [Hin Hlt]] Hall].
      * rewrite Hr. split.
        { right. split; [left | exact E]. }
        constructor; [apply float_ltb_irrefl | rewrite Hr in Hall; exact Hall].
      * split.
        { right. split; [right; exact Hin | exact (float_ltb_trans _ _ _ E Hlt)]. }
        constructor; [|exact Hall].
        destruct (float_ltb (fold_left py_max xs x) x) eqn:E'; [|reflexivity].
        rewrite <- (float_ltb_irrefl x). symmetry.
        exact (float_ltb_trans _ _ _ Hlt E').
    + destruct (IH a) as [[Hr | [Hin Hlt]] Hall].
      * rewrite Hr. split; [left; reflexivity|].
        constructor; [exact E | rewrite Hr in Hall; exact Hall].
      * split.
        { right. split; [right; exact Hin | exact Hlt]. }
        constructor; [|exact Hall].
        destruct (float_ltb (fold_left py_max xs a) x) eqn:E'; [|reflexivity].
        rewrite <- E. symmetry. exact (float_ltb_trans _ _ _ Hlt E').
Qed.

(** From the initial [float("inf")]: the result is an entry of the list as
    soon as one entry is below infinity. *)
Lemma fold_py_min_infinity (xs : list float) :
  Forall (fun x => float_ltb x (fold_left py_min xs infinity) = false) xs
  /\ (Exists (fun x => float_ltb x infinity = true) xs ->
      is_minimum (fold_left py_min xs infinity) xs).
Proof.
  destruct (fold_py_min_spec xs infinity) as [Hr Hall]. split; [exact Hall|].
  intros Hex. split; [|exact Hall].
  destruct Hr as [Hr | [Hin _]]; [|exact Hin].
  rewrite Hr in Hall. apply Exists_exists in Hex. destruct Hex as (x & Hx & Hlt).
  rewrite (proj1 (Forall_forall _ _) Hall x Hx) in Hlt. discriminate.
Qed.

Lemma fold_py_max_neg_infinity (xs : list float) :
  Forall (fun x => float_ltb (fold_left py_max xs neg_infinity) x = false) xs
  /\ (Exists (fun x => float_ltb neg_infinity x = true) xs ->
      is_maximum (fold_left py_max xs neg_infinity) xs).
Proof.
  destruct (fold_py_max_spec xs neg_infinity) as [Hr Hall]. split; [exact Hall|].
  intros Hex. split; [|exact Hall].
  destruct Hr as [Hr | [Hin _]]; [|exact Hin].
  rewrite Hr in Hall. apply Exists_exists in Hex. destruct Hex as (x & Hx & Hlt).
  rewrite (proj1 (Forall_forall _ _) Hall x Hx) in Hlt. discriminate.
Qed.

Section Geometry.

Context {Image : Type}.
Variable size : Rectangle.t -> float * float.

Implicit Types (blocks : list (Block Image)) (texts : list Text.t) (acc : RangeAcc).

Lemma heights_app texts1 texts2 :
  heights size (texts1 ++ texts2) = heights size texts1 ++ heights size texts2.
Proof. apply map_app. Qed.

Lemma corner_xs_app texts1 texts2 :
  corner_xs (texts1 ++ texts2) = corner_xs texts1 ++ corner_xs texts2.
Proof. apply flat_map_app. Qed.

(** The loop over the texts of a block, as four folds over its texts. *)
Lemma range_text_fold texts acc :
  fold_left (range_text size) texts acc =
    mkAcc (fold_left PrimFloat.add (heights size texts) (sum_lines_height acc))
          (texts_count acc + length texts)
          (fold_left py_min (corner_xs texts) (acc_x1 acc))
          (fold_left py_max (corner_xs texts) (acc_x2 acc)).
Proof.
  revert acc. induction texts as [|text texts IH]; intros acc.
  - destruct acc. simpl. rewrite Nat.add_0_r. reflexivity.
  - simpl fold_left at 1. rewrite IH. unfold range_text, Rectangle.iter. simpl.
    f_equal. lia.
Qed.

(** The loop over the blocks, as four folds over the counted texts. *)
Lemma range_block_fold blocks acc :
  fold_left (range_block size) blocks acc =
    mkAcc (fold_left PrimFloat.add (heights size (counted_texts blocks))
             (sum_lines_height acc))
          (texts_count acc + length (counted_texts blocks))
          (fold_left py_min (corner_xs (counted_texts blocks)) (acc_x1 acc))
          (fold_left py_max (corner_xs (counted_texts blocks)) (acc_x2 acc)).
Proof.
  revert acc. induction blocks as [|block blocks IH]; intros acc.
  - destruct acc. simpl. rewrite Nat.add_0_r. reflexivity.
  - simpl fold_left at 1. rewrite IH.
    destruct block as [rect kind texts ind touch | rect image texts]; simpl;
      [destruct (bool_decide (kind = TextKind.ABANDON)); simpl|]; try reflexivity.
    rewrite range_text_fold. simpl.
    rewrite heights_app, corner_xs_app, !fold_left_app, length_app.
    f_equal. lia.
Qed.

Lemma texts_range_empty blocks :
  counted_texts blocks = [] -> _texts_range size blocks = (0, 0, 0)%float.
Proof.
  intros E. unfold _texts_range. rewrite range_block_fold, E. reflexivity.
Qed.

Lemma texts_range_nonempty blocks :
  counted_texts blocks <> [] ->
  exists lo hi,
    _texts_range size blocks = (mean (heights size (counted_texts blocks)), lo, hi)
    /\ Forall (fun x => float_ltb x lo = false) (corner_xs (counted_texts blocks))
    /\ Forall (fun x => float_ltb hi x = false) (corner_xs (counted_texts blocks))
    /\ (Exists (fun x => float_ltb x infinity = true) (corner_xs (counted_texts blocks)) ->
        is_minimum lo (corner_xs (counted_texts blocks)))
    /\ (Exists (fun x => float_ltb neg_infinity x = true)
               (corner_xs (counted_texts blocks)) ->
        is_maximum hi (corner_xs (counted_texts blocks))).
Proof.
  intros Hne. unfold _texts_range. rewrite range_block_fold.
  cbn [texts_count sum_lines_height acc_x1 acc_x2 Nat.add].
  destruct (length (counted_texts blocks) =? 0)%nat eqn:Hlen.
  { apply Nat.eqb_eq, nil_length_inv in Hlen. contradiction. }
  destruct (fold_py_min_infinity (corner_xs (counted_texts blocks))) as [Hlo Hmin].
  destruct (fold_py_max_neg_infinity (corner_xs (counted_texts blocks))) as [Hhi Hmax].
  eexists _, _. split.
  { unfold mean, heights. rewrite length_map. reflexivity. }
  split; [exact Hlo|]. split; [exact Hhi|]. split; [exact Hmin | exact Hmax].
Qed.

(** C3. The Geometry Analyzer aggregates over exactly the Text entries of
    the TextBlocks that are not ABANDON ([counted_texts]): when there is
    none it returns (0.0, 0.0, 0.0); otherwise it returns the mean of their
    rectangle heights (the float sum in input order divided by their
    number), an x1 that no corner x is less than and an x2 that no corner x
    is greater than, x1 being the minimum over the corner x-coordinates as
    soon as one of them is below +inf and x2 the maximum as soon as one of
    them is above -inf. *)
Theorem texts_range_spec blocks :
  (counted_texts blocks = [] -> _texts_range size blocks = (0, 0, 0)%float)
  /\ (counted_texts blocks <> [] ->
      exists lo hi,
        _texts_range size blocks = (mean (heights size (counted_texts blocks)), lo, hi)
        /\ Forall (fun x => float_ltb x lo = false) (corner_xs (counted_texts blocks))
        /\ Forall (fun x => float_ltb hi x = false) (corner_xs (counted_texts blocks))
        /\ (Exists (fun x => float_ltb x infinity = true)
                   (corner_xs (counted_texts blocks)) ->
            is_minimum lo (corner_xs (counted_texts blocks)))
        /\ (Exists (fun x => float_ltb neg_infinity x = true)
                   (corner_xs (counted_texts blocks)) ->
            is_maximum hi (corner_xs (counted_texts blocks)))).
Proof.
  split; [apply texts_range_empty | apply texts_range_nonempty].
Qed.

End Geometry.

(** ** The Paragraph Shape Classifier *)

Section Classifier.

Context {Image ExtractedResult : Type}.
Variable clip : ExtractedResult -> Layout.t -> Image.
Variable size : Rectangle.t -> float * float.

Implicit Types (blocks out : list (Block Image)) (b : Block Image) (texts : list Text.t).
Implicit Types (page_range : float * float * float).

Lemma classify_blocks_Forall2 page_range blocks out :
  classify_blocks size page_range blocks = Ok out ->
  Forall2 (fun b b' => classify_block size page_range b = Ok b') blocks out.
Proof.
  revert out. induction blocks as [|b blocks IH]; intros out; simpl.
  - intros H. simplify_eq. constructor.
  - intros H. apply bind_Ok in H. destruct H as (b' & Hb & H).
    apply bind_Ok in H. destruct H as (rest' & Hrest & H). simplify_eq.
    constructor; [exact Hb | apply IH; exact Hrest].
Qed.

(** A block that is not processed is returned as it is. *)
Lemma classify_block_skipped page_range b :
  ~ processed b -> classify_block size page_range b = Ok b.
Proof.
  destruct b as [rect kind texts ind touch | rect image texts]; simpl; [|reflexivity].
  intros H. destruct (bool_decide (kind = TextKind.ABANDON)) eqn:E; [reflexivity|].
  apply bool_decide_eq_false in E. contradiction.
Qed.

(** A processed block without any text raises IndexError. *)
Lemma classify_block_empty page_range rect kind ind touch :
  kind <> TextKind.ABANDON ->
  classify_block (Image:=Image) size page_range (TextBlock rect kind [] ind touch)
  = Raise IndexError.
Proof.
  intros H. unfold classify_block. rewrite bool_decide_eq_false_2 by assumption.
  destruct (if (length (@nil Text.t) =? 1)%nat then page_range else _) as [[m x1] x2].
  reflexivity.
Qed.

(** A processed block with some text gets its two flags from the
    comparisons against the statistics that apply to it. *)
Lemma classify_block_processed page_range rect kind texts ind touch :
  kind <> TextKind.ABANDON ->
  texts <> [] ->
  exists first_text last_text,
    head texts = Some first_text /\ last texts = Some last_text
    /\ classify_block (Image:=Image) size page_range (TextBlock rect kind texts ind touch)
       = Ok (TextBlock rect kind texts
               (shape_flags (if (length texts =? 1)%nat then page_range
                             else _texts_range (Image:=Image) size
                                    [TextBlock rect kind texts ind touch])
                            first_text last_text).1
               (shape_flags (if (length texts =? 1)%nat then page_range
                             else _texts_range (Image:=Image) size
                                    [TextBlock rect kind texts ind touch])
                            first_text last_text).2).
Proof.
  intros Hk Hne.
  destruct (head texts) as [first_text|] eqn:Hfirst;
    [|destruct texts; [congruence | discriminate]].
  destruct (last texts) as [last_text|] eqn:Hlast;
    [|apply last_None in Hlast; congruence].
  exists first_text, last_text. repeat split.
  unfold classify_block. rewrite bool_decide_eq_false_2 by assumption.
  destruct (if (length texts =? 1)%nat then page_range else _) as [[m x1] x2].
  unfold index_first, index_last. rewrite <- head_lookup, Hfirst, Hlast.
  reflexivity.
Qed.

(** The only exception of the classifier is IndexError, and it comes from a
    processed block without text. *)
Lemma classify_block_cases page_range b :
  (processed b /\ block_texts b = []
   /\ classify_block size page_range b = Raise IndexError)
  \/ (exists b', classify_block size page_range b = Ok b').
Proof.
  destruct b as [rect kind texts ind touch | rect image texts];
    [|right; eexists; reflexivity].
  destruct (decide (kind = TextKind.ABANDON)) as [->|Hk];
    [right; eexists; reflexivity|].
  destruct texts as [|text texts].
  - left. repeat split; [exact Hk | apply classify_block_empty; exact Hk].
  - right.
    destruct (classify_block_processed page_range rect kind (text :: texts) ind touch)
      as (f & l & _ & _ & E); [exact Hk | discriminate | eauto].
Qed.

Lemma classify_blocks_total page_range blocks :
  Forall (fun b => processed b -> block_texts b <> []) blocks ->
  exists out, classify_blocks size page_range blocks = Ok out.
Proof.
  induction 1 as [|b blocks Hb _ IH]; simpl; [eauto|].
  destruct (classify_block_cases page_range b) as [(Hp & He & _) | (b' & ->)].
  - destruct (Hb Hp He).
  - destruct IH as (out & ->). simpl. eauto.
Qed.

Lemma classify_blocks_raises page_range blocks :
  Exists (fun b => processed b /\ block_texts b = []) blocks ->
  classify_blocks size page_range blocks = Raise IndexError.
Proof.
  induction 1 as [b blocks [Hp He] | b blocks _ IH]; simpl.
  - destruct (classify_block_cases page_range b) as [(_ & _ & ->) | (b' & E)];
      [reflexivity|].
    destruct b as [rect kind texts ind touch | rect image texts]; [|destruct Hp].
    simpl in He, Hp. subst texts.
    rewrite classify_block_empty in E by assumption. discriminate.
  - destruct (classify_block_cases page_range b) as [(_ & _ & ->) | (b' & ->)];
      [reflexivity|].
    simpl. rewrite IH. reflexivity.
Qed.

Lemma extract_page_Ok result layouts out :
  extract_page clip size result layouts = Ok out ->
  exists blocks,
    _convert_to_blocks clip result layouts = Ok blocks
    /\ classify_blocks size (_texts_range size blocks) blocks = Ok out.
Proof.
  unfold extract_page. intros H. apply bind_Ok in H. exact H.
Qed.

(** The blocks the assembler hands to the classifier have both flags
    false. *)
Lemma convert_to_blocks_flags_false result layouts blocks :
  _convert_to_blocks clip result layouts = Ok blocks -> Forall flags_false blocks.
Proof.
  intros E. destruct (convert_to_blocks_ok clip result layouts) as (blocks' & E' & H).
  rewrite E in E'. injection E' as <-.
  apply Forall_lookup_2. intros i b Hb.
  destruct (Forall2_lookup_r _ _ _ _ _ H Hb) as (layout & _ & Hl).
  unfold block_of_region in Hl.
  destruct (Layout.cls layout); try contradiction;
    first [subst b | destruct Hl as [texts ->]]; simpl; auto.
Qed.

(** What classification does to one block. *)
Lemma classify_block_frame page_range b b' :
  classify_block size page_range b = Ok b' ->
  same_but_flags b b' /\ (~ processed b -> b' = b).
Proof.
  intros E. split.
  - destruct b as [rect kind texts ind touch | rect image texts].
    + destruct (decide (kind = TextKind.ABANDON)) as [->|Hk].
      * simpl in E. injection E as <-. simpl. auto.
      * destruct texts as [|text texts].
        { rewrite classify_block_empty in E by assumption. discriminate. }
        destruct (classify_block_processed page_range rect kind (text :: texts) ind touch)
          as (f & l & _ & _ & E'); [exact Hk | discriminate |].
        rewrite E' in E. injection E as <-. simpl. auto.
    + simpl in E. injection E as <-. simpl. auto.
  - intros Hp. rewrite classify_block_skipped in E by assumption. congruence.
Qed.

(** The block behind a processed block of the output, and its flags. *)
Lemma classified_block result layouts blocks out i rect kind texts ind touch :
  _convert_to_blocks clip result layouts = Ok blocks ->
  extract_page clip size result layouts = Ok out ->
  out !! i = Some (TextBlock rect kind texts ind touch) ->
  kind <> TextKind.ABANDON ->
  blocks !! i = Some (TextBlock rect kind texts false false)
  /\ exists first_text last_text,
       head texts = Some first_text /\ last texts = Some last_text
       /\ (ind, touch)
          = shape_flags (baseline size blocks (TextBlock rect kind texts false false))
                        first_text last_text.
Proof.
  intros Hconv Hpage Hout Hk.
  apply extract_page_Ok in Hpage. destruct Hpage as (blocks' & E & Hcls).
  rewrite Hconv in E. injection E as <-.
  apply classify_blocks_Forall2 in Hcls.
  destruct (Forall2_lookup_r _ _ _ _ _ Hcls Hout) as (b & Hb & Hcb).
  pose proof (convert_to_blocks_flags_false _ _ _ Hconv) as Hff.
  pose proof (Forall_lookup_1 _ _ _ _ Hff Hb) as Hfb.
  destruct (classify_block_frame _ _ _ Hcb) as [Hsame _].
  destruct b as [rect0 kind0 texts0 ind0 touch0 | rect0 image0 texts0];
    [|destruct Hsame].
  simpl in Hsame, Hfb. destruct Hsame as (-> & -> & ->). destruct Hfb as [-> ->].
  split; [exact Hb|].
  destruct texts as [|text texts].
  { rewrite classify_block_empty in Hcb by assumption. discriminate. }
  destruct (classify_block_processed (_texts_range size blocks) rect kind
              (text :: texts) false false)
    as (f & l & Hf & Hl & E'); [exact Hk | discriminate |].
  rewrite E' in Hcb. injection Hcb as <- <-.
  exists f, l. split; [exact Hf|]. split; [exact Hl|].
  unfold baseline. simpl block_texts.
  destruct (shape_flags _ f l). reflexivity.
Qed.


(** C4. A processed block of one Text line gets its flags from the
    comparisons against the statistics of the whole page; a processed block
    of two or more lines gets them from the comparisons against the
    statistics recomputed from that block alone. *)
Theorem baseline_page_or_block result layouts blocks out i rect kind texts ind touch :
  _convert_to_blocks clip result layouts = Ok blocks ->
  extract_page clip size result layouts = Ok out ->
  out !! i = Some (TextBlock rect kind texts ind touch) ->
  kind <> TextKind.ABANDON ->
  blocks !! i = Some (TextBlock rect kind texts false false)
  /\ (forall text, texts = [text] ->
        (ind, touch) = shape_flags (_texts_range size blocks) text text)
  /\ (forall first_text last_text,
        (2 <= length texts)%nat ->
        head texts = Some first_text -> last texts = Some last_text ->
        (ind, touch)
        = shape_flags (_texts_range size [TextBlock (Image:=Image) rect kind texts false false])
                      first_text last_text).
Proof.
  intros Hconv Hpage Hout Hk.
  destruct (classified_block _ _ _ _ _ _ _ _ _ _ Hconv Hpage Hout Hk)
    as (Hb & f & l & Hf & Hl & Hflags).
  split; [exact Hb|]. unfold baseline in Hflags. simpl block_texts in Hflags. split.
  - intros text ->. simpl in Hf, Hl, Hflags. simplify_eq. exact Hflags.
  - intros first_text last_text Hlen Hf' Hl'.
    rewrite Hf in Hf'. rewrite Hl in Hl'. simplify_eq.
    destruct (Nat.eqb_spec (length texts) 1) as [Hone|_]; [lia|]. exact Hflags.
Qed.

(** C5. Both comparisons are strict: has_paragraph_indentation is true iff
    the first line's left-edge midpoint minus the baseline x1 is greater
    than the mean line height, last_line_touch_end is true iff the baseline
    x2 minus the last line's right-edge midpoint is less than the mean line
    height, and equality gives false in both.  The midpoints, the
    differences and the comparisons are those of float arithmetic. *)
Theorem shape_flags_strict result layouts blocks out i rect kind texts ind touch :
  _convert_to_blocks clip result layouts = Ok blocks ->
  extract_page clip size result layouts = Ok out ->
  out !! i = Some (TextBlock rect kind texts ind touch) ->
  kind <> TextKind.ABANDON ->
  exists first_text last_text m x1 x2,
    head texts = Some first_text /\ last texts = Some last_text
    /\ baseline size blocks (TextBlock rect kind texts false false) = (m, x1, x2)
    /\ (ind = true <-> float_gtb (float_sub (left_midpoint first_text) x1) m = true)
    /\ (touch = true <-> float_ltb (float_sub x2 (right_midpoint last_text)) m = true)
    /\ (float_eqb (float_sub (left_midpoint first_text) x1) m = true -> ind = false)
    /\ (float_eqb (float_sub x2 (right_midpoint last_text)) m = true -> touch = false).
Proof.
  intros Hconv Hpage Hout Hk.
  destruct (classified_block _ _ _ _ _ _ _ _ _ _ Hconv Hpage Hout Hk)
    as (Hb & f & l & Hf & Hl & Hflags).
  destruct (baseline size blocks (TextBlock rect kind texts false false))
    as [[m x1] x2] eqn:E.
  unfold shape_flags in Hflags. injection Hflags as -> ->.
  exists f, l, m, x1, x2.
  split; [exact Hf|]. split; [exact Hl|]. split; [reflexivity|].
  split; [reflexivity|]. split; [reflexivity|]. split.
  - intros Heq. apply float_eqb_not_ltb in Heq. unfold float_gtb. tauto.
  - intros Heq. apply float_eqb_not_ltb in Heq. tauto.
Qed.

(** C9. Classification changes nothing but the two flags of processed
    blocks: the blocks it receives have both flags false, every block of the
    output has the rect, kind, texts and image of the block it comes from, a
    block that is not processed (an AssetBlock or an ABANDON TextBlock) is
    the same block, and ABANDON TextBlocks have both flags false in the
    output. *)
Theorem classification_frame result layouts blocks out :
  _convert_to_blocks clip result layouts = Ok blocks ->
  extract_page clip size result layouts = Ok out ->
  Forall flags_false blocks
  /\ Forall2 (fun b b' => same_but_flags b b' /\ (~ processed b -> b' = b)) blocks out
  /\ Forall (fun b' => ~ processed b' -> flags_false b') out.
Proof.
  intros Hconv Hpage.
  pose proof (convert_to_blocks_flags_false _ _ _ Hconv) as Hff.
  apply extract_page_Ok in Hpage. destruct Hpage as (blocks' & E & Hcls).
  rewrite Hconv in E. injection E as <-.
  apply classify_blocks_Forall2 in Hcls.
  assert (Forall2 (fun b b' => same_but_flags b b' /\ (~ processed b -> b' = b)) blocks out)
    as Hframe.
  { eapply Forall2_impl; [exact Hcls|]. intros b b' H. apply classify_block_frame in H.
    exact H. }
  split; [exact Hff|]. split; [exact Hframe|].
  apply Forall_lookup_2. intros i b' Hb' Hnp.
  destruct (Forall2_lookup_r _ _ _ _ _ Hframe Hb') as (b & Hb & Hsame & Hskip).
  pose proof (Forall_lookup_1 _ _ _ _ Hff Hb) as Hfb.
  assert (~ processed b) as Hnb.
  { destruct b, b'; simpl in *; try tauto. destruct Hsame as (_ & -> & _). exact Hnp. }
  rewrite (Hskip Hnb). exact Hfb.
Qed.

(** C10. Shape classification returns only for pages without a TITLE or
    PLAIN_TEXT region whose fragment list is empty: with such a region the
    page raises IndexError instead of yielding the block with false flags,
    and without one the page is yielded. *)
Theorem extract_page_empty_text_region result layouts :
  (Exists empty_text_region layouts ->
   extract_page clip size result layouts = Raise IndexError)
  /\ (~ Exists empty_text_region layouts ->
      exists out, extract_page clip size result layouts = Ok out).
Proof.
  destruct (convert_to_blocks_ok clip result layouts) as (blocks & E & H).
  unfold extract_page. rewrite E. simpl. split.
  - intros Hex. apply Exists_exists in Hex. destruct Hex as (l & Hin & Hcls & Hfr).
    apply classify_blocks_raises.
    assert (l ∈ kept_regions layouts) as Hkept.
    { apply list_elem_of_In, List.filter_In. split; [apply list_elem_of_In; exact Hin|].
      destruct Hcls as [-> | ->]; reflexivity. }
    apply list_elem_of_lookup_1 in Hkept. destruct Hkept as (j & Hj).
    destruct (Forall2_lookup_l _ _ _ _ _ H Hj) as (b & Hb & Hreg).
    apply Exists_exists. exists b. split; [eapply list_elem_of_lookup_2; exact Hb|].
    unfold block_of_region in Hreg.
    destruct Hcls as [Hc | Hc]; rewrite Hc in Hreg; subst b; rewrite Hfr; simpl;
      (split; [discriminate | reflexivity]).
  - intros Hnex. apply classify_blocks_total.
    apply Forall_lookup_2. intros j b Hb Hp Hnil.
    destruct (Forall2_lookup_r _ _ _ _ _ H Hb) as (l & Hl & Hreg).
    apply Hnex, Exists_exists. exists l.
    apply list_elem_of_lookup_2, list_elem_of_In, List.filter_In in Hl.
    destruct Hl as [Hl _]. split; [apply list_elem_of_In; exact Hl|].
    unfold block_of_region in Hreg. unfold empty_text_region.
    destruct (Layout.cls l); try contradiction;
      first [subst b | destruct Hreg as [texts ->]]; simpl in Hp, Hnil;
      try contradiction; try (destruct Hp; reflexivity);
      (split; [auto | apply map_eq_nil in Hnil; exact Hnil]).
Qed.

End Classifier.

(** * Further properties *)

(** ** Captions and the accumulator *)

Lemma caption_target_asset (cls target : LayoutClass.t) :
  caption_target cls = Some target ->
  target <> LayoutClass.ABANDON
  /\ (target = LayoutClass.FIGURE \/ target = LayoutClass.TABLE
      \/ target = LayoutClass.ISOLATE_FORMULA).
Proof.
  destruct cls; simpl; intros H; try discriminate; injection H as <-;
    (split; [discriminate | auto]).
Qed.

Section Captions.

Context {Image ExtractedResult : Type}.
Variable clip : ExtractedResult -> Layout.t -> Image.

Implicit Types (store : list (LayoutClass.t * Block Image)) (cls target : LayoutClass.t).

(** A caption iteration is the merge into its target type. *)
Lemma convert_layout_caption result store caption target :
  caption_target (Layout.cls caption) = Some target ->
  convert_layout clip result store caption
  = merge_caption store target (Layout.fragments caption).
Proof.
  unfold convert_layout.
  destruct (Layout.cls caption); simpl; intros H; try discriminate;
    injection H as <-; reflexivity.
Qed.

(** An asset iteration appends an AssetBlock without texts. *)
Lemma convert_layout_asset result store asset :
  Layout.cls asset = LayoutClass.FIGURE \/ Layout.cls asset = LayoutClass.TABLE
    \/ Layout.cls asset = LayoutClass.ISOLATE_FORMULA ->
  convert_layout clip result store asset
  = Ok (store ++ [(Layout.cls asset,
                   AssetBlock (Layout.rect asset) (clip result asset) [])]).
Proof.
  unfold convert_layout. intros [H | [H | H]]; rewrite H; reflexivity.
Qed.

(** The merge extends the last entry when it is an AssetBlock of the target
    type. *)
Lemma merge_caption_last store target b fragments :
  target <> LayoutClass.ABANDON ->
  is_AssetBlock b = true ->
  merge_caption (store ++ [(target, b)]) target fragments
  = Ok (store ++ [(target, texts_extend b (_convert_to_text fragments))]).
Proof.
  intros Ht Hb. unfold merge_caption.
  rewrite previous_block_last by assumption.
  rewrite last_snoc, bool_decide_eq_true_2 by reflexivity. rewrite Hb.
  rewrite length_app. simpl length. rewrite Nat.add_1_r. simpl pred.
  replace (length store) with (length store + 0)%nat at 1 by lia.
  rewrite alter_app_r. reflexivity.
Qed.

(** The merge does nothing when the last entry is of another type, or when
    there is no entry. *)
Lemma merge_caption_mismatch store target fragments :
  target <> LayoutClass.ABANDON ->
  (forall e, last store = Some e -> e.1 <> target) ->
  merge_caption store target fragments = Ok store.
Proof.
  intros Ht Hlast. unfold merge_caption.
  rewrite previous_block_last by assumption.
  destruct (last store) as [[block_cls block]|]; [|reflexivity].
  rewrite bool_decide_eq_false_2; [reflexivity|].
  intros ->. exact (Hlast _ eq_refl eq_refl).
Qed.

(** A run of captions behind the entry of their asset. *)
Lemma convert_layouts_captions result store target rect image texts captions :
  target <> LayoutClass.ABANDON ->
  Forall (fun caption => caption_target (Layout.cls caption) = Some target) captions ->
  convert_layouts clip result (store ++ [(target, AssetBlock rect image texts)]) captions
  = Ok (store ++ [(target,
                   AssetBlock rect image
                     (texts ++ flat_map (fun caption =>
                                           _convert_to_text (Layout.fragments caption))
                                        captions))]).
Proof.
  intros Ht Hall. revert texts.
  induction Hall as [|caption captions Hc _ IH]; intros texts; simpl.
  - rewrite app_nil_r. reflexivity.
  - rewrite (convert_layout_caption _ _ _ _ Hc).
    rewrite merge_caption_last by (assumption || reflexivity).
    simpl. rewrite IH, app_assoc. reflexivity.
Qed.

(** The last entry of the accumulator belongs to the last non-caption
    region. *)
Lemma last_entry_of_region result pre store e :
  Forall2 (entry_of_region clip result) (kept_regions pre) store ->
  last store = Some e ->
  exists layout, last (kept_regions pre) = Some layout /\ e.1 = Layout.cls layout.
Proof.
  intros H He. rewrite last_lookup in He.
  destruct (Forall2_lookup_r _ _ _ _ _ H He) as (layout & Hl & Hcls & _).
  exists layout. split; [|exact Hcls].
  rewrite last_lookup, (Forall2_length _ _ _ H). exact Hl.
Qed.

(** X1. An asset region followed by caption regions of its type collects
    them all: its AssetBlock holds the fragments of the captions, in input
    order, and nothing else (the fragments of the asset region itself are
    not kept); the blocks of the regions before it are as without them. *)
Theorem captions_after_asset result pre asset captions blocks_pre :
  Layout.cls asset = LayoutClass.FIGURE \/ Layout.cls asset = LayoutClass.TABLE
    \/ Layout.cls asset = LayoutClass.ISOLATE_FORMULA ->
  Forall (fun caption => caption_target (Layout.cls caption) = Some (Layout.cls asset))
         captions ->
  _convert_to_blocks clip result pre = Ok blocks_pre ->
  _convert_to_blocks clip result (pre ++ asset :: captions)
  = Ok (blocks_pre
        ++ [AssetBlock (Layout.rect asset) (clip result asset)
              (flat_map (fun caption => _convert_to_text (Layout.fragments caption))
                        captions)]).
Proof.
  intros Hasset Hcaps Hpre.
  unfold _convert_to_blocks in Hpre. apply bind_Ok in Hpre.
  destruct Hpre as (store & Hstore & Hblocks). injection Hblocks as <-.
  assert (Layout.cls asset <> LayoutClass.ABANDON) as Hna
    by (destruct Hasset as [H | [H | H]]; rewrite H; discriminate).
  unfold _convert_to_blocks.
  rewrite convert_layouts_app, Hstore. simpl.
  rewrite (convert_layout_asset _ _ _ Hasset). simpl.
  rewrite (convert_layouts_captions _ _ _ _ _ _ _ Hna Hcaps). simpl.
  rewrite map_app. reflexivity.
Qed.

(** X2. A caption region, wherever it stands on the page, is dropped
    whenever the last non-caption region before it is not of the caption's
    target type, or there is none: also when that region is ABANDON, and
    also when a region of the target type lies further back.  The page
    gives the same blocks as the page without the caption. *)
Theorem caption_dropped_unless_last_region_matches result pre caption post target :
  caption_target (Layout.cls caption) = Some target ->
  (forall layout, last (kept_regions pre) = Some layout -> Layout.cls layout <> target) ->
  _convert_to_blocks clip result (pre ++ caption :: post)
  = _convert_to_blocks clip result (pre ++ post).
Proof.
  intros Ht Hlast.
  destruct (caption_target_asset _ _ Ht) as [Hna _].
  destruct (convert_layouts_ok clip result [] [] pre) as (store & E & Hinv);
    [constructor|].
  simpl in Hinv. unfold _convert_to_blocks.
  rewrite !convert_layouts_app, E. simpl.
  rewrite (convert_layout_caption _ _ _ _ Ht).
  rewrite merge_caption_mismatch; [reflexivity | exact Hna |].
  intros e He.
  destruct (last_entry_of_region _ _ _ _ Hinv He) as (layout & Hl & ->).
  exact (Hlast _ Hl).
Qed.

(** X3. For a type other than ABANDON the backward search returns a block
    exactly when the last entry of the accumulator is of that type, and
    then it returns that entry: it never returns an earlier one. *)
Theorem previous_block_only_last_entry store cls i block :
  cls <> LayoutClass.ABANDON ->
  previous_block store cls = Some (i, block)
  <-> last store = Some (cls, block) /\ i = pred (length store).
Proof.
  intros Hc. rewrite previous_block_last by assumption.
  destruct (last store) as [[block_cls b]|].
  - destruct (bool_decide (cls = block_cls)) eqn:E.
    + apply bool_decide_eq_true in E. subst block_cls. split.
      * intros H. simplify_eq. auto.
      * intros [H ->]. simplify_eq. reflexivity.
    + apply bool_decide_eq_false in E. split; [discriminate|].
      intros [H _]. simplify_eq.
  - split; [discriminate | intros [H _]; discriminate].
Qed.

(** Where the texts of a block of the accumulator come from. *)
Lemma convert_layouts_provenance result pre store layouts store' :
  Forall (fun e => forall text, text ∈ block_texts e.2 ->
            exists layout, layout ∈ pre
              /\ text ∈ _convert_to_text (Layout.fragments layout)
              /\ is_caption (Layout.cls layout) = is_AssetBlock e.2) store ->
  convert_layouts clip result store layouts = Ok store' ->
  Forall (fun e => forall text, text ∈ block_texts e.2 ->
            exists layout, layout ∈ pre ++ layouts
              /\ text ∈ _convert_to_text (Layout.fragments layout)
              /\ is_caption (Layout.cls layout) = is_AssetBlock e.2) store'.
Proof.
  revert pre store. induction layouts as [|layout rest IH]; intros pre store Hinv; simpl.
  - intros H. simplify_eq. rewrite app_nil_r. exact Hinv.
  - intros H. apply bind_Ok in H. destruct H as (store1 & Hstep & Hrest).
    replace (pre ++ layout :: rest) with ((pre ++ [layout]) ++ rest)
      by (rewrite <- app_assoc; reflexivity).
    apply (IH _ store1); [|exact Hrest].
    assert (Forall (fun e => forall text, text ∈ block_texts e.2 ->
                      exists layout0, layout0 ∈ pre ++ [layout]
                        /\ text ∈ _convert_to_text (Layout.fragments layout0)
                        /\ is_caption (Layout.cls layout0) = is_AssetBlock e.2) store)
      as Hinv'.
    { eapply Forall_impl; [exact Hinv|]. intros e He text Ht.
      destruct (He text Ht) as (l0 & Hl0 & Hrest0). exists l0.
      split; [apply elem_of_app; left; exact Hl0 | exact Hrest0]. }
    assert (layout ∈ pre ++ [layout]) as Hin
      by (apply elem_of_app; right; left).
    assert (forall target,
              merge_caption store target (Layout.fragments layout) = Ok store1 ->
              is_caption (Layout.cls layout) = true ->
              Forall (fun e => forall text, text ∈ block_texts e.2 ->
                        exists layout0, layout0 ∈ pre ++ [layout]
                          /\ text ∈ _convert_to_text (Layout.fragments layout0)
                          /\ is_caption (Layout.cls layout0) = is_AssetBlock e.2) store1)
      as Hmerge.
    { intros target Hm Hcap. unfold merge_caption in Hm.
      destruct (previous_block store target) as [[i block]|] eqn:Hprev;
        [|simplify_eq; exact Hinv'].
      destruct (is_AssetBlock block) eqn:Hasset; [|discriminate].
      apply previous_block_lookup in Hprev. simplify_eq.
      apply Forall_lookup_2. intros j e Hj.
      destruct (decide (i = j)) as [<-|Hne].
      - rewrite list_lookup_alter_eq, Hprev in Hj. simpl in Hj. simplify_eq. simpl.
        destruct block as [r k ts a b | r im ts]; [discriminate|]. simpl.
        intros text Ht. apply elem_of_app in Ht. destruct Ht as [Ht | Ht].
        + exact (Forall_lookup_1 _ _ _ _ Hinv' Hprev text Ht).
        + exists layout. auto.
      - rewrite list_lookup_alter_ne in Hj by assumption.
        exact (Forall_lookup_1 _ _ _ _ Hinv' Hj). }
    unfold convert_layout in Hstep.
    destruct (Layout.cls layout) eqn:Hcls; try (apply (Hmerge _ Hstep); reflexivity);
      simplify_eq; apply Forall_app; (split; [exact Hinv'|]);
      apply Forall_singleton; simpl; intros text Ht;
      try (inversion Ht; fail);
      exists layout; rewrite Hcls; auto.
Qed.

(** X4. Every Text of every output block is the conversion of a fragment of
    an input region; the texts of an AssetBlock come from caption regions
    only, those of a TextBlock from non-caption regions only. *)
Theorem convert_to_blocks_provenance result layouts blocks b text :
  _convert_to_blocks clip result layouts = Ok blocks ->
  b ∈ blocks ->
  text ∈ block_texts b ->
  exists layout,
    layout ∈ layouts
    /\ text ∈ _convert_to_text (Layout.fragments layout)
    /\ is_caption (Layout.cls layout) = is_AssetBlock b.
Proof.
  intros Hconv Hb Ht. unfold _convert_to_blocks in Hconv.
  apply bind_Ok in Hconv. destruct Hconv as (store & Hstore & Hblocks).
  injection Hblocks as <-.
  apply list_elem_of_fmap in Hb. destruct Hb as (e & -> & He).
  pose proof (convert_layouts_provenance result [] [] layouts store
                (Forall_nil_2 _) Hstore) as H.
  exact (proj1 (Forall_forall _ _) H e He text Ht).
Qed.

End Captions.

(** ** Statistics and flags *)

Section Statistics.

Context {Image ExtractedResult : Type}.
Variable clip : ExtractedResult -> Layout.t -> Image.
Variable size : Rectangle.t -> float * float.

Implicit Types (blocks out : list (Block Image)) (b : Block Image) (texts : list Text.t).
Implicit Types (page_range : float * float * float).

(** The statistics are a function of the counted texts. *)
Lemma texts_range_counted blocks1 blocks2 :
  counted_texts blocks1 = counted_texts blocks2 ->
  _texts_range size blocks1 = _texts_range size blocks2.
Proof.
  intros H. unfold _texts_range. rewrite !range_block_fold, H. reflexivity.
Qed.

Lemma counted_texts_app blocks1 blocks2 :
  counted_texts (blocks1 ++ blocks2) = counted_texts blocks1 ++ counted_texts blocks2.
Proof. apply flat_map_app. Qed.

Lemma counted_texts_skipped b : ~ processed b -> counted_texts [b] = [].
Proof.
  destruct b as [rect kind texts ind touch | rect image texts]; simpl; [|reflexivity].
  intros H. destruct (bool_decide (kind = TextKind.ABANDON)) eqn:E; [reflexivity|].
  apply bool_decide_eq_false in E. contradiction.
Qed.

Lemma counted_texts_same_but_flags blocks out :
  Forall2 same_but_flags blocks out -> counted_texts blocks = counted_texts out.
Proof.
  induction 1 as [|b b' blocks out Hb _ IH]; [reflexivity|].
  change (counted_texts ([b] ++ blocks) = counted_texts ([b'] ++ out)).
  rewrite !counted_texts_app, IH. f_equal.
  destruct b, b'; simpl in Hb; try contradiction;
    destruct Hb as (_ & -> & ->) || destruct Hb as (_ & _ & _); reflexivity.
Qed.

(** The yielded page is the assembler's list, block by block up to the
    flags. *)
Lemma extract_page_same_but_flags result layouts blocks out :
  _convert_to_blocks clip result layouts = Ok blocks ->
  extract_page clip size result layouts = Ok out ->
  Forall2 (fun b b' => classify_block size (_texts_range size blocks) b = Ok b') blocks out
  /\ Forall2 same_but_flags blocks out.
Proof.
  intros Hconv Hpage.
  apply extract_page_Ok in Hpage. destruct Hpage as (blocks' & E & Hcls).
  rewrite Hconv in E. injection E as <-.
  apply classify_blocks_Forall2 in Hcls. split; [exact Hcls|].
  eapply Forall2_impl; [exact Hcls|]. intros b b' H.
  apply classify_block_frame in H. tauto.
Qed.

(** X5. Classification does not change the statistics: the Geometry
    Analyzer gives the same result on the yielded page as on the list the
    assembler returned. *)
Theorem texts_range_unchanged_by_classification result layouts blocks out :
  _convert_to_blocks clip result layouts = Ok blocks ->
  extract_page clip size result layouts = Ok out ->
  _texts_range size out = _texts_range size blocks.
Proof.
  intros Hconv Hpage.
  destruct (extract_page_same_but_flags _ _ _ _ Hconv Hpage) as [_ H].
  apply texts_range_counted. symmetry. apply counted_texts_same_but_flags. exact H.
Qed.

(** X6. An AssetBlock or an ABANDON TextBlock contributes nothing to the
    statistics, whatever texts it holds: the list with it and the list
    without it give the same result. *)
Theorem texts_range_ignores_skipped_block blocks1 b blocks2 :
  ~ processed b ->
  _texts_range size (blocks1 ++ b :: blocks2) = _texts_range size (blocks1 ++ blocks2).
Proof.
  intros Hb. apply texts_range_counted.
  change (b :: blocks2) with ([b] ++ blocks2).
  rewrite !counted_texts_app, (counted_texts_skipped b Hb). reflexivity.
Qed.

(** Blocks that are not processed pass the classifier unchanged. *)
Lemma classify_blocks_skipped page_range blocks :
  Forall (fun b => ~ processed b) blocks ->
  classify_blocks size page_range blocks = Ok blocks.
Proof.
  induction 1 as [|b blocks Hb _ IH]; simpl; [reflexivity|].
  rewrite classify_block_skipped by assumption. simpl. rewrite IH. reflexivity.
Qed.

Lemma counted_texts_all_skipped blocks :
  Forall (fun b => ~ processed b) blocks -> counted_texts blocks = [].
Proof.
  induction 1 as [|b blocks Hb _ IH]; [reflexivity|].
  change (counted_texts ([b] ++ blocks) = []).
  rewrite counted_texts_app, IH, (counted_texts_skipped b Hb). reflexivity.
Qed.

(** X10. A page without TITLE and PLAIN_TEXT regions is yielded as the
    assembler built it, with every flag false, and its page-wide statistics
    are the fallback (0.0, 0.0, 0.0). *)
Theorem page_without_prose result layouts :
  Forall (fun layout => Layout.cls layout <> LayoutClass.TITLE
                        /\ Layout.cls layout <> LayoutClass.PLAIN_TEXT) layouts ->
  exists blocks,
    _convert_to_blocks clip result layouts = Ok blocks
    /\ extract_page clip size result layouts = Ok blocks
    /\ _texts_range size blocks = (0, 0, 0)%float
    /\ Forall flags_false blocks.
Proof.
  intros Hall.
  destruct (convert_to_blocks_ok clip result layouts) as (blocks & E & H).
  assert (Forall (fun b => ~ processed b) blocks) as Hskip.
  { apply Forall_lookup_2. intros i b Hb.
    destruct (Forall2_lookup_r _ _ _ _ _ H Hb) as (layout & Hl & Hreg).
    apply list_elem_of_lookup_2, list_elem_of_In, List.filter_In in Hl.
    destruct Hl as [Hl _]. apply list_elem_of_In in Hl.
    destruct (proj1 (Forall_forall _ _) Hall layout Hl) as [Hn1 Hn2].
    unfold block_of_region in Hreg.
    destruct (Layout.cls layout); try contradiction;
      first [subst b | destruct Hreg as [texts ->]]; simpl; auto. }
  exists blocks. split; [exact E|]. split; [|split].
  - unfold extract_page. rewrite E. simpl. apply classify_blocks_skipped. exact Hskip.
  - apply texts_range_empty, counted_texts_all_skipped. exact Hskip.
  - eapply convert_to_blocks_flags_false. exact E.
Qed.

(** Classifying a classified block again, against the same page
    statistics, returns it as it is. *)
Lemma classify_block_again page_range b b' :
  classify_block size page_range b = Ok b' ->
  classify_block size page_range b' = Ok b'.
Proof.
  intros H.
  destruct b as [rect kind texts ind touch | rect image texts];
    [|simpl in H; simplify_eq; reflexivity].
  destruct (decide (kind = TextKind.ABANDON)) as [->|Hk];
    [simpl in H; simplify_eq; reflexivity|].
  destruct texts as [|text texts].
  { rewrite classify_block_empty in H by assumption. discriminate. }
  destruct (classify_block_processed (Image:=Image) size page_range rect kind (text :: texts) ind touch)
    as (f & l & Hf & Hl & E); [exact Hk | discriminate |].
  rewrite E in H. injection H as <-.
  match goal with
  | |- classify_block _ _ (TextBlock _ _ _ ?i ?t) = _ =>
      destruct (classify_block_processed (Image:=Image) size page_range rect kind (text :: texts) i t)
        as (f' & l' & Hf' & Hl' & E'); [exact Hk | discriminate |]
  end.
  rewrite Hf in Hf'. rewrite Hl in Hl'. simplify_eq. exact E'.
Qed.

(** X11. The classification pass is idempotent: run again on the yielded
    page, with the statistics of that page, it yields the same page. *)
Theorem classification_idempotent result layouts out :
  extract_page clip size result layouts = Ok out ->
  classify_blocks size (_texts_range size out) out = Ok out.
Proof.
  intros Hpage.
  destruct (convert_to_blocks_ok clip result layouts) as (blocks & Hconv & _).
  destruct (extract_page_same_but_flags _ _ _ _ Hconv Hpage) as [Hcls Hsame].
  rewrite (texts_range_counted out blocks)
    by (symmetry; apply counted_texts_same_but_flags; exact Hsame).
  clear Hsame Hpage Hconv.
  generalize dependent (_texts_range size blocks). intros page_range Hcls.
  induction Hcls as [|b b' blocks out Hb _ IH]; simpl; [reflexivity|].
  rewrite (classify_block_again _ _ _ Hb). simpl. rewrite IH. reflexivity.
Qed.

(** X15. The flags of a block of two or more lines depend on its own
    texts only: on whatever pages, at whatever positions, with whatever
    rect and kind, two processed blocks with the same texts get the same
    flags. *)
Theorem multi_line_flags_local
    result1 layouts1 blocks1 out1 i rect1 kind1 ind1 touch1
    result2 layouts2 blocks2 out2 j rect2 kind2 ind2 touch2 texts :
  _convert_to_blocks clip result1 layouts1 = Ok blocks1 ->
  extract_page clip size result1 layouts1 = Ok out1 ->
  out1 !! i = Some (TextBlock rect1 kind1 texts ind1 touch1) ->
  kind1 <> TextKind.ABANDON ->
  _convert_to_blocks clip result2 layouts2 = Ok blocks2 ->
  extract_page clip size result2 layouts2 = Ok out2 ->
  out2 !! j = Some (TextBlock rect2 kind2 texts ind2 touch2) ->
  kind2 <> TextKind.ABANDON ->
  length texts <> 1%nat ->
  ind1 = ind2 /\ touch1 = touch2.
Proof.
  intros Hc1 Hp1 Ho1 Hk1 Hc2 Hp2 Ho2 Hk2 Hlen.
  destruct (classified_block _ _ _ _ _ _ _ _ _ _ _ _ Hc1 Hp1 Ho1 Hk1)
    as (_ & f1 & l1 & Hf1 & Hl1 & E1).
  destruct (classified_block _ _ _ _ _ _ _ _ _ _ _ _ Hc2 Hp2 Ho2 Hk2)
    as (_ & f2 & l2 & Hf2 & Hl2 & E2).
  rewrite Hf1 in Hf2. rewrite Hl1 in Hl2. simplify_eq.
  unfold baseline in E1, E2. simpl block_texts in E1, E2.
  destruct (Nat.eqb_spec (length texts) 1) as [Hone|_]; [contradiction|].
  assert (_texts_range size [TextBlock (Image:=Image) rect1 kind1 texts false false]
          = _texts_range size [TextBlock (Image:=Image) rect2 kind2 texts false false])
    as Hsame.
  { apply texts_range_counted. simpl.
    rewrite !bool_decide_eq_false_2 by assumption. reflexivity. }
  rewrite Hsame in E1. rewrite <- E2 in E1. injection E1 as -> ->. auto.
Qed.

End Statistics.

(** ** The page loop *)

Lemma empty_text_region_dec (layout : Layout.t) :
  {empty_text_region layout} + {~ empty_text_region layout}.
Proof.
  unfold empty_text_region.
  destruct (Layout.fragments layout) as [|f fragments];
    [|right; intros [_ H]; discriminate].
  destruct (decide (Layout.cls layout = LayoutClass.TITLE)) as [H1|H1]; [left; auto|].
  destruct (decide (Layout.cls layout = LayoutClass.PLAIN_TEXT)) as [H2|H2]; [left; auto|].
  right. intros [[H|H] _]; contradiction.
Defined.

Section Pages.

Context {Image ExtractedResult : Type}.
Variable clip : ExtractedResult -> Layout.t -> Image.
Variable size : Rectangle.t -> float * float.

Implicit Types (pages : list (ExtractedResult * list Layout.t)).
Implicit Types (yielded : list (list (Block Image))).

Lemma extract_page_raises result layouts :
  Exists empty_text_region layouts ->
  extract_page clip size result layouts = Raise IndexError.
Proof.
  intros Hex.
  destruct (convert_to_blocks_ok clip result layouts) as (blocks & E & H).
  unfold extract_page. rewrite E. simpl. apply classify_blocks_raises.
  apply Exists_exists in Hex. destruct Hex as (l & Hin & Hcls & Hfr).
  assert (l ∈ kept_regions layouts) as Hkept.
  { apply list_elem_of_In, List.filter_In. split; [apply list_elem_of_In; exact Hin|].
    destruct Hcls as [-> | ->]; reflexivity. }
  apply list_elem_of_lookup_1 in Hkept. destruct Hkept as (j & Hj).
  destruct (Forall2_lookup_l _ _ _ _ _ H Hj) as (b & Hb & Hreg).
  apply Exists_exists. exists b. split; [eapply list_elem_of_lookup_2; exact Hb|].
  unfold block_of_region in Hreg.
  destruct Hcls as [Hc | Hc]; rewrite Hc in Hreg; subst b; rewrite Hfr; simpl;
    (split; [discriminate | reflexivity]).
Qed.

Lemma extract_page_returns result layouts :
  ~ Exists empty_text_region layouts ->
  exists out, extract_page clip size result layouts = Ok out.
Proof.
  intros Hnex.
  destruct (convert_to_blocks_ok clip result layouts) as (blocks & E & H).
  unfold extract_page. rewrite E. simpl. apply classify_blocks_total.
  apply Forall_lookup_2. intros j b Hb Hp Hnil.
  destruct (Forall2_lookup_r _ _ _ _ _ H Hb) as (l & Hl & Hreg).
  apply Hnex, Exists_exists. exists l.
  apply list_elem_of_lookup_2, list_elem_of_In, List.filter_In in Hl.
  destruct Hl as [Hl _]. split; [apply list_elem_of_In; exact Hl|].
  unfold block_of_region in Hreg. unfold empty_text_region.
  destruct (Layout.cls l); try contradiction;
    first [subst b | destruct Hreg as [texts ->]]; simpl in Hp, Hnil;
    try contradiction; try (destruct Hp; reflexivity);
    (split; [auto | apply map_eq_nil in Hnil; exact Hnil]).
Qed.

(** The only exception of a page is IndexError, from a TITLE or PLAIN_TEXT
    region without fragments. *)
Lemma extract_page_exception result layouts e :
  extract_page clip size result layouts = Raise e ->
  e = IndexError /\ Exists empty_text_region layouts.
Proof.
  intros H.
  destruct (@Exists_dec _ empty_text_region empty_text_region_dec layouts) as [Hex|Hnex].
  - rewrite (extract_page_raises _ _ Hex) in H. injection H as <-. auto.
  - destruct (extract_page_returns result layouts Hnex) as (out & E).
    rewrite E in H. discriminate.
Qed.

(** X12. When no page has a TITLE or PLAIN_TEXT region without fragments,
    the generator yields one list per page, in page order, each the result
    of its own page alone, and ends without an exception. *)
Theorem extract_yields_every_page pages :
  Forall (fun page => ~ Exists empty_text_region page.2) pages ->
  exists yielded,
    extract clip size pages = (yielded, None)
    /\ Forall2 (fun page blocks => extract_page clip size page.1 page.2 = Ok blocks)
               pages yielded.
Proof.
  induction 1 as [|[result layouts] pages Hpage _ IH]; simpl.
  - exists []. split; [reflexivity | constructor].
  - destruct (extract_page_returns result layouts Hpage) as (out & E).
    destruct IH as (yielded & Hy & Hall).
    exists (out :: yielded). rewrite E, Hy. split; [reflexivity|].
    constructor; assumption.
Qed.

(** X13. The generator stops at the first page with a TITLE or PLAIN_TEXT
    region without fragments: it has yielded the lists of the pages before
    it, raises IndexError there, and the pages after it play no part. *)
Theorem extract_stops_at_first_failure pre result layouts post :
  Forall (fun page => ~ Exists empty_text_region page.2) pre ->
  Exists empty_text_region layouts ->
  exists yielded,
    extract clip size (pre ++ (result, layouts) :: post) = (yielded, Some IndexError)
    /\ Forall2 (fun page blocks => extract_page clip size page.1 page.2 = Ok blocks)
               pre yielded.
Proof.
  intros Hpre Hbad.
  induction Hpre as [|[result0 layouts0] pre Hpage _ IH]; simpl.
  - exists []. rewrite (extract_page_raises _ _ Hbad). split; [reflexivity | constructor].
  - destruct (extract_page_returns result0 layouts0 Hpage) as (out & E).
    destruct IH as (yielded & Hy & Hall).
    exists (out :: yielded). rewrite E, Hy. split; [reflexivity|].
    constructor; assumption.
Qed.

(** X14. Whatever the pages, the generator either yields a list for every
    page, or ends with IndexError at the page it had reached, which has a
    TITLE or PLAIN_TEXT region without fragments: no AssertionError leaves
    it. *)
Theorem extract_outcome pages yielded e :
  extract clip size pages = (yielded, e) ->
  (e = None /\ length yielded = length pages)
  \/ (e = Some IndexError
      /\ exists result layouts,
           pages !! length yielded = Some (result, layouts)
           /\ Exists empty_text_region layouts).
Proof.
  revert yielded e.
  induction pages as [|[result layouts] pages IH]; intros yielded e; simpl.
  - intros H. simplify_eq. left. auto.
  - destruct (extract_page clip size result layouts) as [blocks|e0] eqn:E.
    + destruct (extract clip size pages) as [yielded' e'] eqn:Hrest.
      intros H. simplify_eq. simpl.
      destruct (IH _ _ eq_refl) as [[-> Hlen] | (-> & r & l & Hl & Hbad)].
      * left. split; [reflexivity | congruence].
      * right. split; [reflexivity|]. exists r, l. auto.
    + intros H. simplify_eq. apply extract_page_exception in E.
      destruct E as [-> Hbad]. right. split; [reflexivity|].
      exists result, layouts. auto.
Qed.

End Pages.

(** * Concrete pages *)

Import Samples.

(** C1. On the page FIGURE, ABANDON, FIGURE_CAPTION the backward search of
    the caption stops at the ABANDON entry without a match: the caption's
    fragments are not appended to the figure's texts.  Without the ABANDON
    region in between they are. *)
Theorem caption_after_abandon_is_dropped :
  previous_block
    [(LayoutClass.FIGURE, asset_block figure []);
     (LayoutClass.ABANDON, text_block TextKind.ABANDON page_header false false)]
    LayoutClass.FIGURE = None
  /\ _convert_to_blocks clip_rect tt [figure; page_header; figure_caption]
     = Ok [asset_block figure []; text_block TextKind.ABANDON page_header false false]
  /\ _convert_to_blocks clip_rect tt [figure; figure_caption]
     = Ok [asset_block figure [figure_caption]].
Proof. repeat split. Qed.

(** The page-wide statistics count the two lines of the paragraph, and
    neither the ABANDON block nor the caption merged into the figure. *)
Example texts_range_page :
  _texts_range axis_size
    [text_block TextKind.PLAIN_TEXT paragraph false false;
     text_block TextKind.ABANDON page_header false false;
     asset_block figure [figure_caption]]
  = (10, 0, 100)%float.
Proof. reflexivity. Qed.

(** A page of ABANDON blocks only. *)
Example texts_range_abandon_only :
  _texts_range axis_size [text_block TextKind.ABANDON page_header false false]
  = (0, 0, 0)%float
  /\ extract_page clip_rect axis_size tt [page_header]
     = Ok [text_block TextKind.ABANDON page_header false false].
Proof. split; reflexivity. Qed.

(** The one-line title is compared with the statistics of the page (left
    boundary 0), not with its own (left boundary 30): it counts as
    indented. *)
Example single_line_uses_page_range :
  extract_page clip_rect axis_size tt [paragraph; title]
  = Ok [text_block TextKind.PLAIN_TEXT paragraph false true;
        text_block TextKind.TITLE title true false]
  /\ shape_flags (_texts_range axis_size [text_block TextKind.TITLE title false false])
       (Text.mk "t" 1 (box 30 0 70 10)) (Text.mk "t" 1 (box 30 0 70 10))
     = (false, true).
Proof. split; reflexivity. Qed.

(** The mean returned is the float quotient of the float sum: for lines of
    height 1, 2 and 4 it is the binary64 number nearest to 7/3. *)
Example texts_range_rounds :
  _texts_range axis_size [text_block TextKind.PLAIN_TEXT uneven_paragraph false false]
  = (0x1.2aaaaaaaaaaabp+1, 0, 10)%float.
Proof. reflexivity. Qed.

(** The first line starts at 12.8, the baseline x1 is 2.8 and the mean line
    height is 10: the float difference 12.8 - 2.8 is 10.0, which is not
    greater than 10.0, and the block is not flagged as indented. *)
Example threshold_after_rounding :
  float_sub 0x1.999999999999ap+3 0x1.6666666666666p+1 = 10%float
  /\ _texts_range axis_size [text_block TextKind.PLAIN_TEXT rounded_paragraph false false]
     = (10, 0x1.6666666666666p+1, 0x1.aeb3333333333p+8)%float
  /\ extract_page clip_rect axis_size tt [rounded_paragraph]
     = Ok [text_block TextKind.PLAIN_TEXT rounded_paragraph false true].
Proof. repeat split. Qed.



Lemma texts_range_spec_witness :
  exists lo hi,
    _texts_range axis_size sample_page
    = (mean (heights axis_size (counted_texts sample_page)), lo, hi)
    /\ Forall (fun x => float_ltb x lo = false) (corner_xs (counted_texts sample_page))
    /\ Forall (fun x => float_ltb hi x = false) (corner_xs (counted_texts sample_page))
    /\ (Exists (fun x => float_ltb x infinity = true) (corner_xs (counted_texts sample_page)) ->
        is_minimum lo (corner_xs (counted_texts sample_page)))
    /\ (Exists (fun x => float_ltb neg_infinity x = true)
               (corner_xs (counted_texts sample_page)) ->
        is_maximum hi (corner_xs (counted_texts sample_page))).
Proof.
  apply (proj2 (texts_range_spec axis_size sample_page)).
  vm_compute. discriminate.
Defined.

Lemma baseline_page_or_block_witness :
  [text_block TextKind.PLAIN_TEXT paragraph false false;
   text_block TextKind.TITLE title false false] !! 1%nat
  = Some (text_block TextKind.TITLE title false false)
  /\ (forall text,
        _convert_to_text (Layout.fragments title) = [text] ->
        (true, false)
        = shape_flags
            (_texts_range axis_size
               [text_block TextKind.PLAIN_TEXT paragraph false false;
                text_block TextKind.TITLE title false false])
            text text)
  /\ (forall first_text last_text,
        (2 <= length (_convert_to_text (Layout.fragments title)))%nat ->
        head (_convert_to_text (Layout.fragments title)) = Some first_text ->
        last (_convert_to_text (Layout.fragments title)) = Some last_text ->
        (true, false)
        = shape_flags
            (_texts_range axis_size [text_block TextKind.TITLE title false false])
            first_text last_text).
Proof.
  apply (baseline_page_or_block clip_rect axis_size tt [paragraph; title]
           [text_block TextKind.PLAIN_TEXT paragraph false false;
            text_block TextKind.TITLE title false false]
           [text_block TextKind.PLAIN_TEXT paragraph false true;
            text_block TextKind.TITLE title true false]
           1 (Layout.rect title) TextKind.TITLE
           (_convert_to_text (Layout.fragments title)) true false).
  - reflexivity.
  - reflexivity.
  - reflexivity.
  - discriminate.
Defined.

Lemma shape_flags_strict_witness :
  exists first_text last_text m x1 x2,
    head (_convert_to_text (Layout.fragments paragraph)) = Some first_text
    /\ last (_convert_to_text (Layout.fragments paragraph)) = Some last_text
    /\ baseline axis_size [text_block TextKind.PLAIN_TEXT paragraph false false]
         (text_block TextKind.PLAIN_TEXT paragraph false false)
       = (m, x1, x2)
    /\ (false = true <-> float_gtb (float_sub (left_midpoint first_text) x1) m = true)
    /\ (true = true <-> float_ltb (float_sub x2 (right_midpoint last_text)) m = true)
    /\ (float_eqb (float_sub (left_midpoint first_text) x1) m = true -> false = false)
    /\ (float_eqb (float_sub x2 (right_midpoint last_text)) m = true -> true = false).
Proof.
  apply (shape_flags_strict clip_rect axis_size tt [paragraph]
           [text_block TextKind.PLAIN_TEXT paragraph false false]
           [text_block TextKind.PLAIN_TEXT paragraph false true]
           0 (Layout.rect paragraph) TextKind.PLAIN_TEXT
           (_convert_to_text (Layout.fragments paragraph)) false true).
  - reflexivity.
  - reflexivity.
  - reflexivity.
  - discriminate.
Defined.

Lemma unmatched_caption_dropped_witness :
  convert_layout clip_rect tt [(LayoutClass.TABLE, asset_block table [])] figure_caption
  = Ok [(LayoutClass.TABLE, asset_block table [])]
  /\ (convert_layouts clip_rect tt [] [table] = Ok [(LayoutClass.TABLE, asset_block table [])] ->
      _convert_to_blocks clip_rect tt ([table] ++ [figure_caption])
      = Ok (map snd [(LayoutClass.TABLE, asset_block table [])])
      /\ _convert_to_blocks clip_rect tt [table]
         = Ok (map snd [(LayoutClass.TABLE, asset_block table [])])).
Proof.
  apply (unmatched_caption_dropped clip_rect tt [table]
           [(LayoutClass.TABLE, asset_block table [])] figure_caption LayoutClass.FIGURE).
  - reflexivity.
  - reflexivity.
Defined.

Lemma caption_target_assertion_witness :
  convert_layout clip_rect tt mistyped_store figure_caption = Raise AssertionError.
Proof.
  apply (proj1 (caption_target_assertion clip_rect) tt mistyped_store figure_caption
           LayoutClass.FIGURE 0%nat (text_block TextKind.PLAIN_TEXT paragraph false false)).
  - reflexivity.
  - reflexivity.
  - reflexivity.
Defined.

Lemma classification_frame_witness :
  Forall flags_false
    [text_block TextKind.PLAIN_TEXT paragraph false false;
     text_block TextKind.ABANDON page_header false false;
     asset_block figure []]
  /\ Forall2 (fun b b' => same_but_flags b b' /\ (~ processed b -> b' = b))
       [text_block TextKind.PLAIN_TEXT paragraph false false;
        text_block TextKind.ABANDON page_header false false;
        asset_block figure []]
       [text_block TextKind.PLAIN_TEXT paragraph false true;
        text_block TextKind.ABANDON page_header false false;
        asset_block figure []]
  /\ Forall (fun b' => ~ processed b' -> flags_false b')
       [text_block TextKind.PLAIN_TEXT paragraph false true;
        text_block TextKind.ABANDON page_header false false;
        asset_block figure []].
Proof.
  apply (classification_frame clip_rect axis_size tt [paragraph; page_header; figure]).
  - reflexivity.
  - reflexivity.
Defined.

Lemma extract_page_empty_text_region_witness :
  extract_page clip_rect axis_size tt [title; empty_paragraph] = Raise IndexError.
Proof.
  apply (proj1 (extract_page_empty_text_region clip_rect axis_size tt
                  [title; empty_paragraph])).
  apply Exists_cons_tl, Exists_cons_hd. split; [right|]; reflexivity.
Defined.

(** ** Further concrete pages *)

Lemma captions_after_asset_witness :
  _convert_to_blocks clip_rect tt ([paragraph] ++ table :: [table_caption; table_footnote])
  = Ok ([text_block TextKind.PLAIN_TEXT paragraph false false]
        ++ [AssetBlock (Layout.rect table) (clip_rect tt table)
              (flat_map (fun caption => _convert_to_text (Layout.fragments caption))
                        [table_caption; table_footnote])]).
Proof.
  apply (captions_after_asset clip_rect tt [paragraph] table [table_caption; table_footnote]
           [text_block TextKind.PLAIN_TEXT paragraph false false]).
  - right. left. reflexivity.
  - repeat constructor.
  - reflexivity.
Defined.

Lemma caption_dropped_unless_last_region_matches_witness :
  _convert_to_blocks clip_rect tt ([figure; paragraph] ++ figure_caption :: [title])
  = _convert_to_blocks clip_rect tt ([figure; paragraph] ++ [title]).
Proof.
  apply (caption_dropped_unless_last_region_matches clip_rect tt [figure; paragraph]
           figure_caption [title] LayoutClass.FIGURE).
  - reflexivity.
  - intros layout H. vm_compute in H. injection H as <-. discriminate.
Defined.

Lemma previous_block_only_last_entry_witness :
  previous_block
    [(LayoutClass.TABLE, asset_block table []); (LayoutClass.FIGURE, asset_block figure [])]
    LayoutClass.FIGURE = Some (1%nat, asset_block figure [])
  <-> last [(LayoutClass.TABLE, asset_block table []);
            (LayoutClass.FIGURE, asset_block figure [])]
      = Some (LayoutClass.FIGURE, asset_block figure [])
      /\ 1%nat = pred (length [(LayoutClass.TABLE, asset_block table []);
                               (LayoutClass.FIGURE, asset_block figure [])]).
Proof.
  apply (previous_block_only_last_entry
           [(LayoutClass.TABLE, asset_block table []);
            (LayoutClass.FIGURE, asset_block figure [])]
           LayoutClass.FIGURE 1 (asset_block figure [])).
  discriminate.
Defined.

Lemma convert_to_blocks_provenance_witness :
  exists layout,
    layout ∈ [figure; figure_caption]
    /\ Text.mk "Figure 1" 1 (box 0 60 40 70) ∈ _convert_to_text (Layout.fragments layout)
    /\ is_caption (Layout.cls layout) = is_AssetBlock (asset_block figure [figure_caption]).
Proof.
  apply (convert_to_blocks_provenance clip_rect tt [figure; figure_caption]
           [asset_block figure [figure_caption]] (asset_block figure [figure_caption])
           (Text.mk "Figure 1" 1 (box 0 60 40 70))).
  - reflexivity.
  - left.
  - left.
Defined.

Lemma texts_range_unchanged_by_classification_witness :
  _texts_range axis_size
    [text_block TextKind.PLAIN_TEXT paragraph false true;
     text_block TextKind.TITLE title true false]
  = _texts_range axis_size
      [text_block TextKind.PLAIN_TEXT paragraph false false;
       text_block TextKind.TITLE title false false].
Proof.
  apply (texts_range_unchanged_by_classification clip_rect axis_size tt [paragraph; title]).
  - reflexivity.
  - reflexivity.
Defined.

Lemma texts_range_ignores_skipped_block_witness :
  _texts_range axis_size
    ([text_block TextKind.PLAIN_TEXT paragraph false false]
     ++ asset_block figure [figure_caption]
     :: [text_block TextKind.TITLE title false false])
  = _texts_range axis_size
      ([text_block TextKind.PLAIN_TEXT paragraph false false]
       ++ [text_block TextKind.TITLE title false false]).
Proof.
  apply (texts_range_ignores_skipped_block axis_size
           [text_block TextKind.PLAIN_TEXT paragraph false false]
           (asset_block figure [figure_caption])
           [text_block TextKind.TITLE title false false]).
  simpl. intros H. exact H.
Defined.

Lemma page_without_prose_witness :
  exists blocks,
    _convert_to_blocks clip_rect tt [figure; page_header; figure_caption] = Ok blocks
    /\ extract_page clip_rect axis_size tt [figure; page_header; figure_caption] = Ok blocks
    /\ _texts_range axis_size blocks = (0, 0, 0)%float
    /\ Forall flags_false blocks.
Proof.
  apply (page_without_prose clip_rect axis_size tt [figure; page_header; figure_caption]).
  repeat constructor; discriminate.
Defined.

Lemma classification_idempotent_witness :
  classify_blocks axis_size
    (_texts_range axis_size
       [text_block TextKind.PLAIN_TEXT paragraph false true;
        text_block TextKind.TITLE title true false])
    [text_block TextKind.PLAIN_TEXT paragraph false true;
     text_block TextKind.TITLE title true false]
  = Ok [text_block TextKind.PLAIN_TEXT paragraph false true;
        text_block TextKind.TITLE title true false].
Proof.
  apply (classification_idempotent clip_rect axis_size tt [paragraph; title]).
  reflexivity.
Defined.

Lemma extract_yields_every_page_witness :
  exists yielded,
    extract clip_rect axis_size [(tt, [paragraph; title]); (tt, [figure; figure_caption])]
    = (yielded, None)
    /\ Forall2 (fun page blocks => extract_page clip_rect axis_size page.1 page.2 = Ok blocks)
               [(tt, [paragraph; title]); (tt, [figure; figure_caption])] yielded.
Proof.
  apply (extract_yields_every_page clip_rect axis_size
           [(tt, [paragraph; title]); (tt, [figure; figure_caption])]).
  repeat constructor; simpl; rewrite !Exists_cons, Exists_nil;
    unfold empty_text_region; simpl; intuition discriminate.
Defined.

Lemma extract_stops_at_first_failure_witness :
  exists yielded,
    extract clip_rect axis_size
      ([(tt, [paragraph])] ++ (tt, [title; empty_paragraph]) :: [(tt, [figure])])
    = (yielded, Some IndexError)
    /\ Forall2 (fun page blocks => extract_page clip_rect axis_size page.1 page.2 = Ok blocks)
               [(tt, [paragraph])] yielded.
Proof.
  apply (extract_stops_at_first_failure clip_rect axis_size
           [(tt, [paragraph])] tt [title; empty_paragraph] [(tt, [figure])]).
  - repeat constructor; simpl; rewrite !Exists_cons, Exists_nil;
      unfold empty_text_region; simpl; intuition discriminate.
  - apply Exists_cons_tl, Exists_cons_hd. split; [right|]; reflexivity.
Defined.

Lemma extract_outcome_witness :
  (Some IndexError = None
   /\ length [[text_block TextKind.PLAIN_TEXT paragraph false true]]
      = length [(tt, [paragraph]); (tt, [title; empty_paragraph]); (tt, [figure])])
  \/ (Some IndexError = Some IndexError
      /\ exists result layouts,
           [(tt, [paragraph]); (tt, [title; empty_paragraph]); (tt, [figure])]
             !! length [[text_block TextKind.PLAIN_TEXT paragraph false true]]
           = Some (result, layouts)
           /\ Exists empty_text_region layouts).
Proof.
  apply (extract_outcome clip_rect axis_size
           [(tt, [paragraph]); (tt, [title; empty_paragraph]); (tt, [figure])]
           [[text_block TextKind.PLAIN_TEXT paragraph false true]] (Some IndexError)).
  reflexivity.
Defined.

Lemma multi_line_flags_local_witness : false = false /\ true = true.
Proof.
  apply (multi_line_flags_local clip_rect axis_size
           tt [paragraph] [text_block TextKind.PLAIN_TEXT paragraph false false]
           [text_block TextKind.PLAIN_TEXT paragraph false true]
           0 (Layout.rect paragraph) TextKind.PLAIN_TEXT false true
           tt [title; paragraph]
           [text_block TextKind.TITLE title false false;
            text_block TextKind.PLAIN_TEXT paragraph false false]
           [text_block TextKind.TITLE title true false;
            text_block TextKind.PLAIN_TEXT paragraph false true]
           1 (Layout.rect paragraph) TextKind.PLAIN_TEXT false true
           (_convert_to_text (Layout.fragments paragraph))).
  - reflexivity.
  - reflexivity.
  - reflexivity.
  - discriminate.
  - reflexivity.
  - reflexivity.
  - reflexivity.
  - discriminate.
  - discriminate.
Defined.
